(** * Kidney segmentation backend: frame pipeline, codec adapter and
      streaming session

    A shallow embedding of [backend/model_service.py], [backend/utils.py]
    and [backend/main.py].  Python exceptions are an explicit error monad,
    numpy arrays are a shape with row-major data, dictionaries are finite
    maps, and the WebSocket loop is a recursion over the inbound frames.
    The libraries the backend calls (OpenCV, PIL, torchvision, the U-Net,
    the PNG and base64 codecs, [json]) are collaborators: what the code
    relies on is written out, what it treats as opaque is a field of an
    interface. *)

From Stdlib Require Import ZArith QArith Qround Qabs List String Ascii Bool Lia.
From stdpp Require Import base option list gmap strings.

Local Open Scope string_scope.
Local Open Scope list_scope.
Local Open Scope nat_scope.

(** * Exceptions *)

Module Py.

(** The exception classes that occur; all derive from [Exception]. *)
Inductive exc_class :=
| TypeError | ValueError | IndexError | AttributeError | RuntimeError
| KeyError | cv2_error | JSONDecodeError | WebSocketDisconnect | OSError.

Record exn := Exc { exc_type : exc_class; exc_str : string }.

Inductive result (A : Type) :=
| Ok (a : A)
| Raise (e : exn).
Arguments Ok {A} a.
Arguments Raise {A} e.

Definition is_ok {A} (r : result A) : bool :=
  match r with Ok _ => true | Raise _ => false end.

(** [try: body / except Exception as e: logger.error(...); raise] *)
Definition log_and_reraise {A} (body : result A) : result A :=
  match body with
  | Ok a => Ok a
  | Raise e => Raise e
  end.

End Py.
Export Py.

#[export] Instance result_ret : MRet result := fun A a => Ok a.
#[export] Instance result_bind : MBind result := fun A B f m =>
  match m with
  | Ok a => f a
  | Raise e => Raise e
  end.

(** * Arrays *)

(** A numpy array or torch tensor: its shape and its elements in row-major
    order.  [ndarray Z] is a [uint8] array, [ndarray Q] a float one (floats
    are idealised as rationals). *)
Record ndarray (A : Type) := NDArray { shape : list nat; data : list A }.
Arguments NDArray {A} shape data.
Arguments shape {A} _.
Arguments data {A} _.

Definition numel (sh : list nat) : nat := fold_right Nat.mul 1 sh.

(** An array built from its element function, as the collaborators return
    them. *)
Definition tabulate {A} (sh : list nat) (f : nat -> A) : ndarray A :=
  NDArray sh (map f (seq 0 (numel sh))).

(** [a.squeeze()]: all axes of length one are dropped. *)
Definition squeeze {A} (a : ndarray A) : ndarray A :=
  NDArray (List.filter (fun d => negb (d =? 1)) (shape a)) (data a).

(** [t.unsqueeze(0)] *)
Definition unsqueeze0 {A} (t : ndarray A) : ndarray A :=
  NDArray (1 :: shape t) (data t).

(** * OpenCV *)

Inductive color_code := COLOR_BGR2RGB | COLOR_RGB2BGR | COLOR_BGR2GRAY.

(** Swap the first and third sample of every pixel. *)
Fixpoint swap_rb (d : list Z) : list Z :=
  match d with
  | c0 :: c1 :: c2 :: rest => c2 :: c1 :: c0 :: swap_rb rest
  | _ => d
  end.

(** Four-channel input of a three-channel swap: alpha is dropped. *)
Fixpoint swap_rb_drop_alpha (d : list Z) : list Z :=
  match d with
  | c0 :: c1 :: c2 :: _ :: rest => c2 :: c1 :: c0 :: swap_rb_drop_alpha rest
  | _ => []
  end.

(** Pixels of a three-channel array reduced by [luma b g r]. *)
Fixpoint gray_of3 (luma : Z -> Z -> Z -> Z) (d : list Z) : list Z :=
  match d with
  | b :: g :: r :: rest => luma b g r :: gray_of3 luma rest
  | _ => []
  end.

(** The same for four channels; alpha is ignored. *)
Fixpoint gray_of4 (luma : Z -> Z -> Z -> Z) (d : list Z) : list Z :=
  match d with
  | b :: g :: r :: _ :: rest => luma b g r :: gray_of4 luma rest
  | _ => []
  end.

(** * PIL images *)

Inductive pil_mode := L | LA | RGB | RGBA.

Definition bands (m : pil_mode) : nat :=
  match m with L => 1 | LA => 2 | RGB => 3 | RGBA => 4 end.

(** [size] is (width, height) as in PIL; [pixels] are interleaved. *)
Record pil_image := PILImage {
  mode : pil_mode;
  width : nat;
  height : nat;
  pixels : list Z
}.

(** * Library collaborators *)

(** What the backend takes from its libraries as given: the interpolation
    kernels of the two resize calls, the gray reduction of [cvtColor] and
    the logistic function.  Resized samples are given by flat index, so a
    resized array has the right number of elements by construction. *)
Class Backend := {
  luma : Z -> Z -> Z -> Z;
  pil_resample : pil_image -> nat -> nat -> nat -> Z;
  cv_resample : ndarray Z -> nat -> nat -> nat -> Z;
  sigmoid : Q -> Q
}.

Section Libraries.
Context `{Backend}.

(** [cv2.cvtColor(src, code)].  The source must be a non-empty array of three
    or four channels; the two swaps are the same conversion. *)
Definition cvtColor (src : ndarray Z) (code : color_code)
  : result (ndarray Z) :=
  if numel (shape src) =? 0 then Raise (Exc cv2_error "!_src.empty()")
  else
    match shape src with
    | [h; w; c] =>
        match code with
        | COLOR_BGR2RGB | COLOR_RGB2BGR =>
            if c =? 3 then Ok (NDArray [h; w; 3] (swap_rb (data src)))
            else if c =? 4
            then Ok (NDArray [h; w; 3] (swap_rb_drop_alpha (data src)))
            else Raise (Exc cv2_error "Invalid number of channels")
        | COLOR_BGR2GRAY =>
            if c =? 3 then Ok (NDArray [h; w] (gray_of3 luma (data src)))
            else if c =? 4 then Ok (NDArray [h; w] (gray_of4 luma (data src)))
            else Raise (Exc cv2_error "Invalid number of channels")
        end
    | _ => Raise (Exc cv2_error "Invalid number of channels")
    end.

(** [cv2.resize(src, (w, h))] with the default interpolation. *)
Definition cv2_resize (src : ndarray Z) (dsize : nat * nat)
  : result (ndarray Z) :=
  let '(w, h) := dsize in
  if numel (shape src) =? 0 then Raise (Exc cv2_error "!ssize.empty()")
  else if (w =? 0) || (h =? 0) then Raise (Exc cv2_error "!dsize.empty()")
  else
    match shape src with
    | [_] | [_; _] => Ok (tabulate [h; w] (cv_resample src h w))
    | [_; _; c] =>
        if c =? 1 then Ok (tabulate [h; w] (cv_resample src h w))
        else if c <=? 4 then Ok (tabulate [h; w; c] (cv_resample src h w))
        else Raise (Exc cv2_error "unsupported array layout")
    | _ => Raise (Exc cv2_error "unsupported array layout")
    end.

(** [Image.fromarray(obj)] for [uint8] data: the mode is read off the
    trailing axes, and only 1, 2, 3 or 4 bands in the listed layouts are
    known. *)
Definition Image_fromarray (obj : ndarray Z) : result pil_image :=
  match shape obj with
  | [] => Raise (Exc IndexError "tuple index out of range")
  | [n] => Ok (PILImage L 1 n (data obj))
  | [h; w] => Ok (PILImage L w h (data obj))
  | [h; w; c] =>
      if c =? 2 then Ok (PILImage LA w h (data obj))
      else if c =? 3 then Ok (PILImage RGB w h (data obj))
      else if c =? 4 then Ok (PILImage RGBA w h (data obj))
      else Raise (Exc TypeError "Cannot handle this data type")
  | _ => Raise (Exc TypeError "Cannot handle this data type")
  end.

(** [np.array(pil_image)] *)
Definition np_array (im : pil_image) : ndarray Z :=
  match mode im with
  | L => NDArray [height im; width im] (pixels im)
  | m => NDArray [height im; width im; bands m] (pixels im)
  end.

(** ** torchvision transforms *)

(** [transforms.Resize((h, w))] on a PIL image: mode kept, size replaced. *)
Definition Resize (h w : nat) (im : pil_image) : pil_image :=
  PILImage (mode im) w h
    (map (pil_resample im h w) (seq 0 (h * w * bands (mode im)))).

(** [transforms.ToTensor()]: HWC bytes to a CHW float tensor in [0,1]. *)
Definition ToTensor (im : pil_image) : ndarray Q :=
  let c := bands (mode im) in
  let hw := height im * width im in
  NDArray [c; height im; width im]
    (flat_map
       (fun ch =>
          map (fun i => inject_Z (nth (i * c + ch) (pixels im) 0%Z) / 255)%Q
            (seq 0 hw))
       (seq 0 c)).

(** [transforms.Normalize(mean, std)]: in-place [sub_] and [div_] of the
    per-channel statistics viewed as [(k,1,1)]; the channel axis of the
    tensor has to be [k] unless [k] is 1, since an in-place operand may not
    grow. *)
Definition broadcast_mismatch : string :=
  "output shape does not match the broadcast shape".

Definition Normalize (mean std : list Q) (t : ndarray Q)
  : result (ndarray Q) :=
  match shape t with
  | [c; h; w] =>
      if existsb (fun s => Qeq_bool s 0) std
      then Raise (Exc ValueError "std evaluated to zero")
      else if (length mean =? c) && (length std =? c) ||
              (length mean =? 1) && (length std =? 1)
      then Ok (NDArray [c; h; w]
                 (imap
                    (fun i x =>
                       let ch :=
                         if length mean =? 1 then 0 else i / (h * w) in
                       ((x - nth ch mean 0) / nth ch std 1)%Q)
                    (data t)))
      else Raise (Exc RuntimeError broadcast_mismatch)
  | _ => Raise (Exc ValueError "Expected tensor to be a tensor image")
  end.

End Libraries.

(** ** numpy element casts, broadcasting and indexed assignment *)

(** Truncation toward zero, as the float-to-integer cast does. *)
Definition trunc (q : Q) : Z := Z.quot (Qnum q) (Zpos (Qden q)).

(** [x.astype(np.uint8)] on one float sample: the fraction is discarded and
    the integer kept in eight bits. *)
Definition astype_uint8 (q : Q) : Z := (trunc q) mod 256.

(** Right-align a value shape with a target shape: missing leading axes are
    ones, surplus leading axes must be ones. *)
Fixpoint strip_leading_ones (n : nat) (vs : list nat) : option (list nat) :=
  match n, vs with
  | O, _ => Some vs
  | S n', v :: vs' => if v =? 1 then strip_leading_ones n' vs' else None
  | S _, [] => None
  end.

Definition align_shape (vs ts : list nat) : option (list nat) :=
  if length vs <=? length ts
  then Some (repeat 1 (length ts - length vs) ++ vs)
  else strip_leading_ones (length vs - length ts) vs.

Fixpoint broadcastable (vs ts : list nat) : bool :=
  match vs, ts with
  | [], [] => true
  | v :: vs', t :: ts' => ((v =? t) || (v =? 1)) && broadcastable vs' ts'
  | _, _ => false
  end.

(** Elements of a value of shape [vs] stretched to shape [ts]: an axis of
    length one is repeated. *)
Fixpoint broadcast_data {A} (vs ts : list nat) (d : list A) : list A :=
  match vs, ts with
  | v :: vs', t :: ts' =>
      let chunk := numel vs' in
      flat_map
        (fun i =>
           broadcast_data vs' ts'
             (take chunk (drop ((if v =? 1 then 0 else i) * chunk) d)))
        (seq 0 t)
  | _, _ => d
  end.

(** [a[:, :, k] = value] *)
Definition setitem_channel (a : ndarray Z) (k : nat) (value : ndarray Z)
  : result (ndarray Z) :=
  match shape a with
  | h :: w :: c :: rest =>
      if c <=? k
      then Raise (Exc IndexError "index is out of bounds for axis 2")
      else
        let target := h :: w :: rest in
        match align_shape (shape value) target with
        | Some vs =>
            if broadcastable vs target
            then
              let r := numel rest in
              let b := broadcast_data vs target (data value) in
              Ok (NDArray (shape a)
                    (flat_map
                       (fun p =>
                          let block :=
                            take (c * r) (drop (p * (c * r)) (data a)) in
                          take (k * r) block
                            ++ take r (drop (p * r) b)
                            ++ drop (S k * r) block)
                       (seq 0 (h * w))))
            else Raise (Exc ValueError "could not broadcast input array")
        | None => Raise (Exc ValueError "could not broadcast input array")
        end
  | _ => Raise (Exc IndexError "too many indices for array")
  end.

(** [np.zeros_like(a, dtype=np.uint8)] *)
Definition zeros_like {A} (a : ndarray A) : ndarray Z :=
  NDArray (shape a) (repeat 0%Z (numel (shape a))).

(** ** Weighted sum *)

(** Rounding to nearest, ties to even. *)
Definition cvRound (q : Q) : Z :=
  let f := Qfloor q in
  match (q - inject_Z f ?= 1 # 2)%Q with
  | Lt => f
  | Gt => (f + 1)%Z
  | Eq => if Z.even f then f else (f + 1)%Z
  end.

Definition saturate_uint8 (z : Z) : Z := Z.max 0 (Z.min 255 z).

(** [cv2.addWeighted(src1, alpha, src2, beta, gamma)] on [uint8] arrays of
    one shape. *)
Definition addWeighted (src1 : ndarray Z) (alpha : Q) (src2 : ndarray Z)
    (beta gamma : Q) : result (ndarray Z) :=
  if bool_decide (shape src1 = shape src2)
  then Ok (NDArray (shape src1)
             (zip_with
                (fun x y =>
                   saturate_uint8
                     (cvRound
                        (inject_Z x * alpha + inject_Z y * beta + gamma)%Q))
                (data src1) (data src2)))
  else Raise (Exc cv2_error "The operation is neither 'array op array'").

(** * model_service.py *)

(** The network: a forward pass that may reject its input. *)
Definition Net := ndarray Q -> result (ndarray Q).

(** Wall-clock readings: [time.time()] returns the next reading. *)
Record clock := Clock { now : nat -> Q; ticks : nat }.

Definition time_time (clk : clock) : Q * clock :=
  (now clk (ticks clk), Clock (now clk) (S (ticks clk))).

(** Values of the dictionary [process_image] returns. *)
Inductive rval :=
| RArray (a : ndarray Z)
| RFloat (t : Q).

Record ModelService := {
  device : string;
  model : option Net;
  transform : option (pil_image -> result (ndarray Q));
  image_height : nat;
  image_width : nat
}.

Section ModelServiceMethods.
Context `{Backend}.

(** [transforms.Compose([Resize((h, w)), ToTensor(), Normalize(0, 1)])] *)
Definition Compose_transforms (h w : nat) (im : pil_image)
  : result (ndarray Q) :=
  Normalize [0; 0; 0]%Q [1; 1; 1]%Q (ToTensor (Resize h w im)).

Definition _setup_transforms (self : ModelService) : ModelService :=
  {| device := device self;
     model := model self;
     transform :=
       Some (Compose_transforms (image_height self) (image_width self));
     image_height := image_height self;
     image_width := image_width self |}.

(** Calling an attribute that may still be [None]. *)
Definition call {A B} (f : option (A -> result B)) (x : A) : result B :=
  match f with
  | Some g => g x
  | None => Raise (Exc TypeError "'NoneType' object is not callable")
  end.

Definition preprocess_image (self : ModelService) (image : ndarray Z)
  : result (ndarray Q) :=
  log_and_reraise (
    image_rgb ← (if (length (shape image) =? 3) &&
                    (nth 2 (shape image) 0 =? 3)
                 then cvtColor image COLOR_BGR2RGB
                 else Ok image);
    pil_image ← Image_fromarray image_rgb;
    tensor ← call (transform self) pil_image;
    Ok (unsqueeze0 tensor)).

(** [t[i]] on a tuple *)
Definition tuple_item (t : list nat) (i : nat) : result nat :=
  match t !! i with
  | Some x => Ok x
  | None => Raise (Exc IndexError "tuple index out of range")
  end.

Definition postprocess_output (self : ModelService) (output : ndarray Q)
    (original_shape : list nat) : result (ndarray Z) :=
  log_and_reraise (
    let mask := NDArray (shape output) (map sigmoid (data output)) in
    let mask := squeeze mask in
    let mask :=
      NDArray (shape mask)
        (map (fun p => astype_uint8 (p * 255)%Q) (data mask)) in
    if bool_decide (take 2 original_shape ≠ shape mask)
    then
      w ← tuple_item original_shape 1;
      h ← tuple_item original_shape 0;
      cv2_resize mask (w, h)
    else Ok mask).

Definition overlay_mask (self : ModelService) (image mask : ndarray Z)
    (alpha : Q) : result (ndarray Z) :=
  log_and_reraise (
    mask ← (if length (shape mask) =? 3
            then cvtColor mask COLOR_BGR2GRAY
            else Ok mask);
    mask_colored ← setitem_channel (zeros_like image) 1 mask;
    addWeighted image (1 - alpha) mask_colored alpha 0).

(** The default [alpha]. *)
Definition default_alpha : Q := 1 # 2.

Definition process_image (self : ModelService) (image : ndarray Z)
    (clk : clock) : result (gmap string rval) * clock :=
  let '(start_time, clk) := time_time clk in
  let body :=
    let original_shape := shape image in
    input_tensor ← preprocess_image self image;
    output ← call (model self) input_tensor;
    mask ← postprocess_output self output original_shape;
    overlay ← overlay_mask self image mask default_alpha;
    Ok (mask, overlay) in
  match body with
  | Ok (mask, overlay) =>
      let '(end_time, clk) := time_time clk in
      let processing_time := (end_time - start_time)%Q in
      (Ok (<["mask" := RArray mask]>
           (<["overlay" := RArray overlay]>
            (<["processing_time" := RFloat processing_time]> ∅))), clk)
  | Raise e => (Raise e, clk)
  end.

End ModelServiceMethods.

(** ** Construction of the service *)

(** What [torch] and the file system answer while the service is built. *)
Record torch_env := {
  checkpoint : Type;
  cuda_is_available : bool;
  UNET : result Net;
  path_exists : string -> bool;
  torch_load : string -> result checkpoint;
  load_checkpoint : checkpoint -> Net -> result Net
}.

Section ModelServiceInit.
Context `{Backend}.
Variable env : torch_env.

Definition with_model (self : ModelService) (m : Net) : ModelService :=
  {| device := device self;
     model := Some m;
     transform := transform self;
     image_height := image_height self;
     image_width := image_width self |}.

Definition _load_model (self : ModelService) (checkpoint_path : option string)
  : result ModelService :=
  log_and_reraise (
    net ← UNET env;
    let self := with_model self net in
    let checkpoint_path :=
      match checkpoint_path with
      | None => "./checkpoints/UltimaVersion/my_checkpoint.pth.tar"
      | Some path => path
      end in
    self ← (if negb (String.eqb checkpoint_path "") &&
               path_exists env checkpoint_path
            then
              ckpt ← torch_load env checkpoint_path;
              net ← load_checkpoint env ckpt net;
              Ok (with_model self net)
            else Ok self);
    Ok self).

(** [ModelService(checkpoint_path)]: the object exists only if [__init__]
    returns. *)
Definition ModelService_init (checkpoint_path : option string)
  : result ModelService :=
  let self :=
    {| device := if cuda_is_available env then "cuda" else "cpu";
       model := None;
       transform := None;
       image_height := 560;
       image_width := 690 |} in
  self ← _load_model self checkpoint_path;
  Ok (_setup_transforms self).

End ModelServiceInit.

(** * utils.py *)

(** The PNG and base64 codecs, byte strings as strings. *)
Class Codec := {
  b64encode : string -> string;
  b64decode : string -> result string;
  Image_save : pil_image -> string -> result string;
  Image_open : string -> result pil_image
}.

Section Utils.
Context `{Backend} `{Codec}.

Definition encode_image_to_base64 (image : ndarray Z) (format : string)
  : result string :=
  log_and_reraise (
    pil_image ← (if length (shape image) =? 3
                 then
                   image_rgb ← cvtColor image COLOR_BGR2RGB;
                   Image_fromarray image_rgb
                 else Image_fromarray image);
    buffer ← Image_save pil_image format;
    Ok (b64encode buffer)).

Definition decode_base64_to_image (base64_string : string)
  : result (ndarray Z) :=
  log_and_reraise (
    img_data ← b64decode base64_string;
    pil_image ← Image_open img_data;
    let image_np := np_array pil_image in
    if (length (shape image_np) =? 3) && (nth 2 (shape image_np) 0 =? 3)
    then cvtColor image_np COLOR_RGB2BGR
    else Ok image_np).

End Utils.

(** * main.py *)

(** Python values that travel as JSON. *)
#[local] Unset Elimination Schemes.
Inductive pyval :=
| PNone
| PBool (b : bool)
| PInt (z : Z)
| PFloat (q : Q)
| PStr (s : string)
| PList (items : list pyval)
| PDict (members : list (string * pyval)).
#[local] Set Elimination Schemes.

(** [bool(v)] *)
Definition truthy (v : pyval) : bool :=
  match v with
  | PNone => false
  | PBool b => b
  | PInt z => negb (z =? 0)%Z
  | PFloat q => negb (Qeq_bool q 0)
  | PStr s => negb (String.eqb s "")
  | PList items => match items with [] => false | _ => true end
  | PDict members => match members with [] => false | _ => true end
  end.

(** [v.get(key)]: only a [dict] has the method; of repeated members of a
    JSON object the last one is kept. *)
Definition py_get (v : pyval) (key : string) : result pyval :=
  match v with
  | PDict members =>
      Ok (default PNone
            ((list_to_map (reverse members) : gmap string pyval) !! key))
  | _ => Raise (Exc AttributeError "object has no attribute 'get'")
  end.

(** [s.split(',')] *)
Fixpoint split_comma (s : string) : list string :=
  match s with
  | EmptyString => [""]
  | String c rest =>
      if Ascii.eqb c ","
      then "" :: split_comma rest
      else
        match split_comma rest with
        | piece :: more => String c piece :: more
        | [] => [String c ""]
        end
  end.

(** A server reply: the dictionary handed to [json.dumps]. *)
Abbreviation response := (gmap string pyval).

(** One client connection, as the transport presents it: whether the
    handshake succeeds, and what happens to the k-th [send_text]. *)
Record WebSocket := {
  ws_id : nat;
  accept_outcome : option exn;
  send_outcome : nat -> option exn;
  sends : nat;
  sent : list response
}.

Definition send_text (ws : WebSocket) (message : response)
  : result unit * WebSocket :=
  match send_outcome ws (sends ws) with
  | None =>
      (Ok tt,
       {| ws_id := ws_id ws; accept_outcome := accept_outcome ws;
          send_outcome := send_outcome ws;
          sends := S (sends ws); sent := sent ws ++ [message] |})
  | Some e =>
      (Raise e,
       {| ws_id := ws_id ws; accept_outcome := accept_outcome ws;
          send_outcome := send_outcome ws;
          sends := S (sends ws); sent := sent ws |})
  end.

(** What [receive_text] yields: a text frame, represented by what
    [json.loads] makes of it, or an exception of the transport. *)
Inductive received :=
| Message (loads : result pyval)
| ReceiveRaises (e : exn).

(** The module globals and the clock. *)
Record server := {
  model_service : option ModelService;
  active_connections : list nat;
  wall : clock
}.

Definition set_wall (srv : server) (clk : clock) : server :=
  {| model_service := model_service srv;
     active_connections := active_connections srv;
     wall := clk |}.

(** ** Health and startup *)

Definition health_check (srv : server) : response :=
  <["status" := PStr "healthy"]>
  (<["model_loaded" :=
       PBool (match model_service srv with
              | Some ms => bool_decide (is_Some (model ms))
              | None => false
              end)]> ∅).

Definition startup_event `{Backend} (env : torch_env) (srv : server)
  : result unit * server :=
  match ModelService_init env None with
  | Ok ms =>
      (Ok tt,
       {| model_service := Some ms;
          active_connections := active_connections srv;
          wall := wall srv |})
  | Raise e => (Raise e, srv)
  end.

(** ** The streaming endpoint *)

(** Locals of one run of [websocket_endpoint] together with the globals. *)
Record session := {
  frame_count : nat;
  websocket : WebSocket;
  srv : server
}.

Definition with_websocket (st : session) (ws : WebSocket) : session :=
  {| frame_count := frame_count st; websocket := ws; srv := srv st |}.

Definition with_srv (st : session) (s : server) : session :=
  {| frame_count := frame_count st; websocket := websocket st; srv := s |}.

(** [manager.connect] and [manager.disconnect] *)
Definition connect (ws : WebSocket) (s : server) : result unit * server :=
  match accept_outcome ws with
  | Some e => (Raise e, s)
  | None =>
      (Ok tt,
       {| model_service := model_service s;
          active_connections := active_connections s ++ [ws_id ws];
          wall := wall s |})
  end.

Fixpoint list_remove (x : nat) (l : list nat) : result (list nat) :=
  match l with
  | [] => Raise (Exc ValueError "list.remove(x): x not in list")
  | y :: l' =>
      if x =? y then Ok l'
      else match list_remove x l' with
           | Ok r => Ok (y :: r)
           | Raise e => Raise e
           end
  end.

Definition disconnect (ws : WebSocket) (s : server) : result unit * server :=
  match list_remove (ws_id ws) (active_connections s) with
  | Ok l =>
      (Ok tt,
       {| model_service := model_service s;
          active_connections := l;
          wall := wall s |})
  | Raise e => (Raise e, s)
  end.

Section Endpoints.
Context `{Backend} `{Codec}.

(** [result[key]] *)
Definition getitem (d : gmap string rval) (key : string) : result rval :=
  match d !! key with
  | Some v => Ok v
  | None => Raise (Exc KeyError key)
  end.

Definition encode_value (v : rval) : result string :=
  match v with
  | RArray a => encode_image_to_base64 a "PNG"
  | RFloat _ =>
      Raise (Exc AttributeError "'float' object has no attribute 'shape'")
  end.

Definition float_value (v : rval) : pyval :=
  match v with
  | RFloat t => PFloat t
  | RArray _ => PNone
  end.

(** Lines 175-176: the data-URL prefix is cut off at the first comma. *)
Definition strip_data_url (image_data : pyval) : result string :=
  match image_data with
  | PStr s =>
      if String.prefix "data:image" s
      then match split_comma s !! 1 with
           | Some payload => Ok payload
           | None => Raise (Exc IndexError "list index out of range")
           end
      else Ok s
  | _ => Raise (Exc AttributeError "object has no attribute 'startswith'")
  end.

(** Lines 187-193: the success reply. *)
Definition success_response (res : gmap string rval) (frame_count : nat)
  : result response :=
  mask ← getitem res "mask";
  segmentation_mask ← encode_value mask;
  overlay ← getitem res "overlay";
  overlay ← encode_value overlay;
  Ok (<["success" := PBool true]>
      (<["segmentation_mask" := PStr segmentation_mask]>
       (<["overlay" := PStr overlay]>
        (<["processing_time" :=
             default (PInt 0) (float_value <$> res !! "processing_time")]>
         (<["frame_number" := PInt (Z.of_nat frame_count)]> ∅))))).

(** Lines 172-196: the body of the inner [try]. *)
Definition try_frame (image_data : pyval) (st : session)
  : result unit * session :=
  match strip_data_url image_data with
  | Raise e => (Raise e, st)
  | Ok image_data =>
      match decode_base64_to_image image_data with
      | Raise e => (Raise e, st)
      | Ok image_np =>
          match model_service (srv st) with
          | None =>
              (Raise (Exc AttributeError
                        "'NoneType' object has no attribute 'process_image'"),
               st)
          | Some ms =>
              let '(r, clk) := process_image ms image_np (wall (srv st)) in
              let st := with_srv st (set_wall (srv st) clk) in
              match r with
              | Raise e => (Raise e, st)
              | Ok res =>
                  match success_response res (frame_count st) with
                  | Raise e => (Raise e, st)
                  | Ok reply =>
                      let '(r, ws) := send_text (websocket st) reply in
                      (r, with_websocket st ws)
                  end
              end
          end
      end
  end.

Definition invalid_json_response : response :=
  <["success" := PBool false]> (<["error" := PStr "Invalid JSON data"]> ∅).

Definition no_image_response : response :=
  <["success" := PBool false]>
  (<["error" := PStr "No image data provided"]> ∅).

Definition processing_failed_response (e : exn) (frame_count : nat)
  : response :=
  <["success" := PBool false]>
  (<["error" := PStr ("Processing failed: " +:+ exc_str e)]>
   (<["frame_number" := PInt (Z.of_nat frame_count)]> ∅)).

(** How one pass through the [while True] body ends: at its end or at a
    [continue], or with an exception that leaves the loop. *)
Inductive flow :=
| NextIteration
| Leaves (e : exn).

Definition after_send (r : result unit * WebSocket) (st : session)
  : flow * session :=
  match r with
  | (Ok _, ws) => (NextIteration, with_websocket st ws)
  | (Raise e, ws) => (Leaves e, with_websocket st ws)
  end.

(** Lines 148-204, after [receive_text] has returned one text frame. *)
Definition loop_body (loads : result pyval) (st : session) : flow * session :=
  let st :=
    {| frame_count := frame_count st + 1;
       websocket := websocket st;
       srv := srv st |} in
  match loads with
  | Raise e =>
      match exc_type e with
      | JSONDecodeError =>
          after_send (send_text (websocket st) invalid_json_response) st
      | _ => (Leaves e, st)
      end
  | Ok frame_data =>
      match py_get frame_data "image" with
      | Raise e => (Leaves e, st)
      | Ok image_data =>
          if negb (truthy image_data)
          then after_send (send_text (websocket st) no_image_response) st
          else
            match try_frame image_data st with
            | (Ok _, st) => (NextIteration, st)
            | (Raise e, st) =>
                after_send
                  (send_text (websocket st)
                     (processing_failed_response e (frame_count st)))
                  st
            end
      end
  end.

(** The session as the spec names its states. *)
Inductive status :=
| HandshakeFailed (e : exn)
| Open
| Closed (e : exn).

(** Both outer handlers log and call [manager.disconnect]. *)
Definition on_exception (e : exn) (st : session) : status * session :=
  match disconnect (websocket st) (srv st) with
  | (Ok _, s) => (Closed e, with_srv st s)
  | (Raise e', s) => (Closed e', with_srv st s)
  end.

(** The [while True] loop over what the transport delivers.  When nothing
    more arrives the coroutine stays suspended in [receive_text]: the
    session is still [Open]. *)
Fixpoint receive_loop (inbox : list received) (st : session)
  : status * session :=
  match inbox with
  | [] => (Open, st)
  | ReceiveRaises e :: _ => on_exception e st
  | Message loads :: inbox' =>
      match loop_body loads st with
      | (NextIteration, st) => receive_loop inbox' st
      | (Leaves e, st) => on_exception e st
      end
  end.

Definition websocket_endpoint (ws : WebSocket) (inbox : list received)
    (s : server) : status * session :=
  match connect ws s with
  | (Raise e, s) =>
      (HandshakeFailed e, {| frame_count := 0; websocket := ws; srv := s |})
  | (Ok _, s) =>
      receive_loop inbox {| frame_count := 0; websocket := ws; srv := s |}
  end.

(** ** The upload endpoint *)

Record UploadFile := {
  filename : string;
  content_type : string;
  contents : string
}.

Record JSONResponse := { status_code : nat; content : response }.

Definition error_content (msg : string) : response :=
  <["success" := PBool false]> (<["error" := PStr msg]> ∅).

Definition upload_image (file : UploadFile) (s : server)
  : JSONResponse * server :=
  if negb (String.prefix "image/" (content_type file))
  then ({| status_code := 400;
           content := error_content "File must be an image" |}, s)
  else
    match model_service s with
    | None =>
        ({| status_code := 500;
            content := error_content "Model service not available" |}, s)
    | Some ms =>
        match (image ← Image_open (contents file); Ok (np_array image)) with
        | Raise _ =>
            ({| status_code := 400;
                content := error_content "Invalid image file" |}, s)
        | Ok image_np =>
            let '(r, clk) := process_image ms image_np (wall s) in
            let s := set_wall s clk in
            match (res ← r;
                   original_image ← encode_image_to_base64 image_np "PNG";
                   mask ← getitem res "mask";
                   segmentation_mask ← encode_value mask;
                   overlay ← getitem res "overlay";
                   overlay ← encode_value overlay;
                   Ok (<["success" := PBool true]>
                       (<["original_image" := PStr original_image]>
                        (<["segmentation_mask" := PStr segmentation_mask]>
                         (<["overlay" := PStr overlay]> ∅))))) with
            | Ok body => ({| status_code := 200; content := body |}, s)
            | Raise e =>
                ({| status_code := 500;
                    content :=
                      error_content
                        ("Model processing failed: " +:+ exc_str e) |},
                 s)
            end
        end
    end.

End Endpoints.

(** * utils.py: validators and error body *)

(** [c.lower()] for a character of a header value, a code point below 256:
    the letters A-Z and the capitals of Latin-1 (all of 192-222 but the
    multiplication sign) move up by 32. *)
Definition lower_char (c : ascii) : ascii :=
  let n := nat_of_ascii c in
  if ((65 <=? n) && (n <=? 90)) ||
     ((192 <=? n) && (n <=? 222) && negb (n =? 215))
  then ascii_of_nat (n + 32)
  else c.

(** [s.lower()] *)
Fixpoint lower (s : string) : string :=
  match s with
  | EmptyString => EmptyString
  | String c rest => String (lower_char c) (lower rest)
  end.

(** [x in formats] *)
Definition in_formats (x : string) (formats : list string) : bool :=
  existsb (String.eqb x) formats.

Definition validate_image_format (file_content_type : string) : bool :=
  let supported_formats :=
    ["image/jpeg"; "image/jpg"; "image/png"; "image/bmp"; "image/tiff"] in
  in_formats (lower file_content_type) supported_formats.

Definition validate_video_format (file_content_type : string) : bool :=
  let supported_formats :=
    ["video/mp4"; "video/avi"; "video/mov"; "video/mkv"; "video/webm"] in
  in_formats (lower file_content_type) supported_formats.

Definition create_error_response (message : string) (status_code : Z)
  : response :=
  <["success" := PBool false]>
  (<["error" := PStr message]>
   (<["status_code" := PInt status_code]> ∅)).

(** * The video endpoint *)

(** [ModelService.process_video]: the placeholder result. *)
Definition process_video (self : ModelService) (video_data : string)
  : response :=
  <["frame_count" := PInt 0]>
  (<["total_time" := PInt 0]>
   (<["output_path" := PNone]> ∅)).

(** What [str(e)] is for an [HTTPException] of a given status and detail;
    the framework decides. *)
Class Framework := { str_HTTPException : nat -> string -> string }.

(** What leaves a handler: a body, or an [HTTPException]. *)
Inductive http_result :=
| Returns (body : response)
| RaisesHTTPException (code : nat) (detail : string).

(** What the [try] body of [upload_video] may raise. *)
Inductive raised :=
| PyException (e : exn)
| HTTPExceptionRaised (code : nat) (detail : string).

Definition str_raised `{Framework} (r : raised) : string :=
  match r with
  | PyException e => exc_str e
  | HTTPExceptionRaised code detail => str_HTTPException code detail
  end.

Definition upload_video `{Framework} (file : UploadFile) (s : server)
  : http_result :=
  let body : raised + response :=
    if negb (String.prefix "video/" (content_type file))
    then inl (HTTPExceptionRaised 400 "File must be a video")
    else
      match model_service s with
      | None =>
          inl (PyException
                 (Exc AttributeError
                    "'NoneType' object has no attribute 'process_video'"))
      | Some ms =>
          let res := process_video ms (contents file) in
          match res !! "frame_count" with
          | None => inl (PyException (Exc KeyError "frame_count"))
          | Some processed_frames =>
              match res !! "total_time" with
              | None => inl (PyException (Exc KeyError "total_time"))
              | Some processing_time =>
                  inr (<["success" := PBool true]>
                       (<["processed_frames" := processed_frames]>
                        (<["processing_time" := processing_time]>
                         (<["video_url" :=
                              default PNone (res !! "output_path")]> ∅))))
              end
          end
      end in
  match body with
  | inr reply => Returns reply
  | inl e => RaisesHTTPException 500 (str_raised e)
  end.

(** * start_backend.py *)

(** What the host answers to the startup script: whether the imports
    succeed, which files exist, how [torch] behaves, and how
    [uvicorn.run] ends. *)
Record host := {
  missing_dependency : option string;
  file_exists : string -> bool;
  torch : torch_env;
  uvicorn_run : result unit
}.

Definition check_dependencies (h : host) : bool :=
  match missing_dependency h with
  | None => true
  | Some _ => false
  end.

Definition files_to_check : list string :=
  ["model.py"; "model_utils.py"; "model_service.py"; "utils.py";
   "checkpoints/UltimaVersion/my_checkpoint.pth.tar"].

(** The loop visits every file; one that is missing clears the flag. *)
Definition check_model_files (h : host) : bool :=
  fold_left
    (fun all_exist file_path =>
       if file_exists h file_path then all_exist else false)
    files_to_check true.

Definition test_model_loading `{Backend} (h : host) : bool :=
  match ModelService_init (torch h) None with
  | Ok _ => true
  | Raise _ => false
  end.

(** How [main] ends: [sys.exit(code)], before or after the server was run,
    or by returning once the server has. *)
Inductive main_outcome :=
| SysExit (code : Z) (server_was_run : bool)
| ServerReturned.

Definition main `{Backend} (h : host) : main_outcome :=
  if negb (check_dependencies h) then SysExit 1 false
  else if negb (check_model_files h) then SysExit 1 false
  else if negb (test_model_loading h) then SysExit 1 false
  else
    match uvicorn_run h with
    | Ok _ => ServerReturned
    | Raise _ => SysExit 1 true
    end.

(** * The specification's wording

    Definitions that follow the words of the specification, to be compared
    with what the code computes. *)

(** "round(value*255)": the nearest integer, a fraction of one half or more
    going up. *)
Definition round_to_nearest (q : Q) : Z := Qfloor (q + (1 # 2)).

(** The body of the [/health] reply. *)
Definition health_body (model_loaded : bool) : response :=
  <["status" := PStr "healthy"]> (<["model_loaded" := PBool model_loaded]> ∅).

(** The stages of the frame pipeline, in order; [originating_error] is the
    error of the first one that fails. *)
Inductive originating_error `{Backend} (self : ModelService)
    (image : ndarray Z) : exn -> Prop :=
| preprocess_failed e :
    preprocess_image self image = Raise e ->
    originating_error self image e
| inference_failed t e :
    preprocess_image self image = Ok t ->
    call (model self) t = Raise e ->
    originating_error self image e
| postprocess_failed t o e :
    preprocess_image self image = Ok t ->
    call (model self) t = Ok o ->
    postprocess_output self o (shape image) = Raise e ->
    originating_error self image e
| overlay_failed t o m e :
    preprocess_image self image = Ok t ->
    call (model self) t = Ok o ->
    postprocess_output self o (shape image) = Ok m ->
    overlay_mask self image m default_alpha = Raise e ->
    originating_error self image e.

(** A complete FrameResult: mask, overlay and processing time, all three and
    nothing else, the arrays being what the stages produced. *)
Definition complete_result `{Backend} (self : ModelService)
    (image : ndarray Z) (res : gmap string rval) : Prop :=
  exists t o mask overlay seconds,
    preprocess_image self image = Ok t /\
    call (model self) t = Ok o /\
    postprocess_output self o (shape image) = Ok mask /\
    overlay_mask self image mask default_alpha = Ok overlay /\
    res !! "mask" = Some (RArray mask) /\
    res !! "overlay" = Some (RArray overlay) /\
    res !! "processing_time" = Some (RFloat seconds) /\
    dom res = ({["mask"; "overlay"; "processing_time"]} : gset string).

(** "PNG encoding is lossless": the codec gives this PIL image back after
    saving it as PNG, encoding the bytes in base64, and decoding both. *)
Definition lossless_on `{Codec} (im : pil_image) : Prop :=
  exists buffer,
    Image_save im "PNG" = Ok buffer /\
    b64decode (b64encode buffer) = Ok buffer /\
    Image_open buffer = Ok im.

Definition uint8_samples (d : list Z) : Prop :=
  Forall (fun v => (0 <= v < 256)%Z) d.

(** A [uint8] array: as many samples as the shape says, each one byte. *)
Definition uint8_image (a : ndarray Z) : Prop :=
  length (data a) = numel (shape a) /\ uint8_samples (data a).

(** The same for a PIL image. *)
Definition pil_well_formed (im : pil_image) : Prop :=
  length (pixels im) = height im * width im * bands (mode im) /\
  uint8_samples (pixels im).

(** The text frames the loop body has a handler for: text that is not JSON,
    and JSON objects. *)
Definition guarded_frame (r : received) : Prop :=
  match r with
  | Message (Raise e) => exc_type e = JSONDecodeError
  | Message (Ok (PDict _)) => True
  | _ => False
  end.

(** A reply is error-tagged. *)
Definition error_tagged (reply : response) : Prop :=
  reply !! "success" = Some (PBool false).

(** A reply echoes the frame number [n]. *)
Definition echoes (reply : response) (n : nat) : Prop :=
  reply !! "frame_number" = Some (PInt (Z.of_nat n)).

(** The path [_load_model] looks at: the one given, or the default. *)
Definition effective_checkpoint_path (checkpoint_path : option string)
  : string :=
  default "./checkpoints/UltimaVersion/my_checkpoint.pth.tar" checkpoint_path.

(** One blended sample: [x] of the image against [y] of the coloured mask,
    rounded and kept in eight bits. *)
Definition mix (alpha : Q) (x y : Z) : Z :=
  saturate_uint8
    (cvRound (inject_Z x * (1 - alpha) + inject_Z y * alpha + 0)%Q).

(** The overlay pixel by pixel: the mask sample goes against the second
    channel, nothing against the first and the third. *)
Fixpoint blend_green (alpha : Q) (image mask : list Z) : list Z :=
  match mask, image with
  | m :: mask', c0 :: c1 :: c2 :: image' =>
      mix alpha c0 0 :: mix alpha c1 m :: mix alpha c2 0
        :: blend_green alpha image' mask'
  | _, _ => []
  end.

(** A four-channel picture without its fourth channel. *)
Fixpoint drop_alpha (d : list Z) : list Z :=
  match d with
  | c0 :: c1 :: c2 :: _ :: rest => c0 :: c1 :: c2 :: drop_alpha rest
  | _ => []
  end.

(** A string without a comma, as base64 text and media types are. *)
Fixpoint comma_free (s : string) : bool :=
  match s with
  | EmptyString => true
  | String c rest => negb (Ascii.eqb c ",") && comma_free rest
  end.

(** * Test doubles

    Stand-ins for the collaborators, used to run the embedding on concrete
    inputs: nearest-neighbour resampling, a rational squashing function that
    agrees with the logistic one at 0, a network that answers a constant
    score map, and a byte container that keeps every pixel. *)

Module TestDouble.

Definition nearest (src_h src_w c : nat) (d : list Z) (h w i : nat) : Z :=
  let y := i / (w * c) in
  let x := (i / c) mod w in
  let ch := i mod c in
  nth (((y * src_h / h) * src_w + x * src_w / w) * c + ch) d 0%Z.

Definition squash (s : Q) : Q :=
  ((1 # 2) + s / (2 * (1 + Qabs s)))%Q.

#[export] Instance backend : Backend := {|
  luma := fun b g r => ((b * 1868 + g * 9617 + r * 4899 + 8192) / 16384)%Z;
  pil_resample := fun im h w i =>
    nearest (height im) (width im) (bands (mode im)) (pixels im) h w i;
  cv_resample := fun src h w i =>
    match shape src with
    | [sh; sw; c] => nearest sh sw c (data src) h w i
    | [sh; sw] => nearest sh sw 1 (data src) h w i
    | _ => nearest (length (data src)) 1 1 (data src) h w i
    end;
  sigmoid := squash
|}.

(** A network that accepts exactly the input shape it was built for. *)
Definition net : Net := fun t =>
  if bool_decide (shape t = [1; 3; 560; 690])
  then Ok (tabulate [1; 1; 560; 690] (fun _ => 0%Q))
  else Raise (Exc RuntimeError "size mismatch").

Definition env : torch_env := {|
  checkpoint := unit;
  cuda_is_available := false;
  UNET := Ok net;
  path_exists := fun _ => false;
  torch_load := fun _ => Ok tt;
  load_checkpoint := fun _ m => Ok m
|}.

Definition service : ModelService := {|
  device := "cpu";
  model := Some net;
  transform := Some (Compose_transforms 560 690);
  image_height := 560;
  image_width := 690
|}.

(** The byte container: one character for the mode, one each for width and
    height, one per sample. *)
Definition mode_char (m : pil_mode) : ascii :=
  match m with L => "L" | LA => "A" | RGB => "C" | RGBA => "D" end%char.

Definition mode_of_char (c : ascii) : option pil_mode :=
  if Ascii.eqb c "L" then Some L
  else if Ascii.eqb c "A" then Some LA
  else if Ascii.eqb c "C" then Some RGB
  else if Ascii.eqb c "D" then Some RGBA
  else None.

Definition sample_char (v : Z) : ascii := ascii_of_N (Z.to_N v).
Definition char_sample (c : ascii) : Z := Z.of_N (N_of_ascii c).

Definition save (im : pil_image) (format : string) : result string :=
  if negb (String.eqb format "PNG")
  then Raise (Exc KeyError format)
  else if (width im =? 0) || (height im =? 0)
  then Raise (Exc ValueError "cannot write empty image")
  else
    Ok (String (mode_char (mode im))
          (String (ascii_of_nat (width im))
             (String (ascii_of_nat (height im))
                (string_of_list_ascii (map sample_char (pixels im)))))).

Definition open (buffer : string) : result pil_image :=
  match buffer with
  | String m (String w (String h body)) =>
      match mode_of_char m with
      | Some md =>
          Ok (PILImage md (nat_of_ascii w) (nat_of_ascii h)
                (map char_sample (list_ascii_of_string body)))
      | None => Raise (Exc OSError "cannot identify image file")
      end
  | _ => Raise (Exc OSError "cannot identify image file")
  end.

#[export] Instance codec : Codec := {|
  b64encode := fun b => b;
  b64decode := fun s => Ok s;
  Image_save := save;
  Image_open := open
|}.

(** The stored form of a 1x1 image holding the red pixel (200, 0, 0). *)
Definition red_pixel_png : string :=
  match save (PILImage RGB 1 1 [200; 0; 0]%Z) "PNG" with
  | Ok buffer => buffer
  | Raise _ => ""
  end.

(** A well-formed frame carrying that image, and a frame that is not JSON. *)
Definition red_frame : received :=
  Message (Ok (PDict [("image", PStr red_pixel_png)])).

Definition garbled_frame : received :=
  Message (Raise (Exc JSONDecodeError "Expecting value")).

(** The stored form of a 1x2 grayscale image. *)
Definition gray_png : string :=
  match save (PILImage L 2 1 [10; 240]%Z) "PNG" with
  | Ok buffer => buffer
  | Raise _ => ""
  end.

(** A connection whose handshake and sends all succeed. *)
Definition socket : WebSocket := {|
  ws_id := 1;
  accept_outcome := None;
  send_outcome := fun _ => None;
  sends := 0;
  sent := []
|}.

Definition wall_clock : clock := Clock (fun n => inject_Z (Z.of_nat n)) 0.

Definition app : server := {|
  model_service := Some service;
  active_connections := [];
  wall := wall_clock
|}.

End TestDouble.

(** * Properties *)

(** ** Shared facts *)

Lemma log_and_reraise_id {A} (r : result A) : log_and_reraise r = r.
Proof. by destruct r. Qed.

Lemma numel_nonzero (sh : list nat) :
  Forall (fun d => 0 < d) sh -> numel sh <> 0.
Proof.
  induction 1 as [|d sh Hd _ IH]; simpl; [lia|].
  fold (numel sh). nia.
Qed.

Lemma numel_eqb_nonzero (sh : list nat) :
  Forall (fun d => 0 < d) sh -> (numel sh =? 0) = false.
Proof. intros Hsh. apply Nat.eqb_neq. by apply numel_nonzero. Qed.

Lemma swap_rb_length (d : list Z) : length (swap_rb d) = length d.
Proof.
  revert d.
  fix IH 1.
  intros [|c0 [|c1 [|c2 rest]]]; try reflexivity.
  simpl. by rewrite IH.
Qed.

Lemma swap_rb_involutive (d : list Z) : swap_rb (swap_rb d) = d.
Proof.
  revert d.
  fix IH 1.
  intros [|c0 [|c1 [|c2 rest]]]; try reflexivity.
  simpl. by rewrite IH.
Qed.

(** ** The service as [__init__] leaves it *)

Lemma ModelService_init_fields `{Backend} (env : torch_env)
    (checkpoint_path : option string) (self : ModelService) :
  ModelService_init env checkpoint_path = Ok self ->
  transform self = Some (Compose_transforms 560 690) /\
  is_Some (model self) /\
  image_height self = 560 /\ image_width self = 690.
Proof.
  unfold ModelService_init, _load_model. rewrite log_and_reraise_id.
  destruct (UNET env) as [n|e]; simpl; [|discriminate].
  match goal with |- context [if ?c then _ else _] => destruct c end; simpl.
  - destruct (torch_load env _) as [ck|e]; simpl; [|discriminate].
    destruct (load_checkpoint env ck n) as [n'|e]; simpl; [|discriminate].
    intros [= <-]. simpl. eauto.
  - intros [= <-]. simpl. eauto.
Qed.

Lemma init_double :
  @ModelService_init TestDouble.backend TestDouble.env None
  = Ok TestDouble.service.
Proof. reflexivity. Qed.

(** ** Preprocessing *)

(** The transform pipeline keeps the band count of the PIL image as the
    channel count, and accepts three bands only. *)
Lemma Compose_transforms_rgb `{Backend} (h w : nat) (im : pil_image) :
  mode im = RGB ->
  exists t, Compose_transforms h w im = Ok t /\ shape t = [3; h; w].
Proof.
  intros Hm. unfold Compose_transforms, Normalize, ToTensor, Resize.
  simpl. rewrite Hm. simpl. eauto.
Qed.

Lemma Compose_transforms_other `{Backend} (h w : nat) (im : pil_image) :
  mode im <> RGB ->
  Compose_transforms h w im =
  Raise (Exc RuntimeError broadcast_mismatch).
Proof.
  intros Hm. unfold Compose_transforms, Normalize, ToTensor, Resize.
  simpl. destruct (mode im); try congruence; reflexivity.
Qed.

Lemma preprocess_image_grayscale `{Backend} (self : ModelService)
    (image : ndarray Z) (h w : nat) :
  transform self = Some (Compose_transforms 560 690) ->
  shape image = [h; w] ->
  preprocess_image self image =
  Raise (Exc RuntimeError broadcast_mismatch).
Proof.
  intros Ht Hs. unfold preprocess_image. rewrite log_and_reraise_id, Hs, Ht.
  simpl. unfold Image_fromarray. rewrite Hs. reflexivity.
Qed.

(** C3 (as amended): for every three-channel [uint8] image of positive height
    and width, whatever its resolution, [preprocess_image] of a constructed
    service succeeds and the tensor has shape exactly (1, 3, 560, 690), with
    that many elements. *)
Theorem preprocess_image_three_channel_shape `{Backend} (env : torch_env)
    (checkpoint_path : option string) (self : ModelService)
    (image : ndarray Z) (h w : nat) :
  ModelService_init env checkpoint_path = Ok self ->
  shape image = [h; w; 3] ->
  0 < h -> 0 < w ->
  exists t,
    preprocess_image self image = Ok t /\
    shape t = [1; 3; 560; 690] /\
    length (data t) = numel [1; 3; 560; 690].
Proof.
  intros Hinit Hs Hh Hw.
  destruct (ModelService_init_fields _ _ _ Hinit) as (Ht & _).
  unfold preprocess_image. rewrite log_and_reraise_id, Hs, Ht.
  cbn [length nth Nat.eqb andb].
  unfold cvtColor. rewrite Hs.
  rewrite numel_eqb_nonzero by (repeat constructor; lia).
  cbn [Nat.eqb mbind result_bind].
  unfold Image_fromarray. cbn [shape Nat.eqb mbind result_bind call].
  unfold Compose_transforms, Normalize, ToTensor, Resize.
  cbn [shape mode bands height width pixels existsb length Nat.eqb andb orb
       Qeq_bool Qnum Qden Z.mul Z.eqb Z.compare Pos.mul Pos.compare
       Pos.compare_cont mbind result_bind unsqueeze0 data].
  eexists. split; [reflexivity|]. split; [reflexivity|].
  unfold unsqueeze0. cbn [shape data seq flat_map].
  rewrite length_imap, !length_app, !length_map, !length_seq.
  unfold numel, fold_right. cbn [length]. lia.
Qed.

Lemma preprocess_image_three_channel_shape_witness :
  @ModelService_init TestDouble.backend TestDouble.env None
    = Ok TestDouble.service /\
  shape (NDArray [2; 3; 3] (repeat 7%Z 18)) = [2; 3; 3] /\
  0 < 2 /\ 0 < 3 /\
  exists t,
    @preprocess_image TestDouble.backend TestDouble.service
      (NDArray [2; 3; 3] (repeat 7%Z 18)) = Ok t /\
    shape t = [1; 3; 560; 690] /\
    length (data t) = numel [1; 3; 560; 690].
Proof.
  split; [reflexivity|]. split; [reflexivity|].
  split; [lia|]. split; [lia|].
  apply (@preprocess_image_three_channel_shape TestDouble.backend
           TestDouble.env None TestDouble.service
           (NDArray [2; 3; 3] (repeat 7%Z 18)) 2 3);
    [reflexivity | reflexivity | lia | lia].
Defined.

(** C3 (as stated) fails on a grayscale image: a 4x4 single-channel image is
    not turned into a (1, 3, 560, 690) tensor, the call raises. *)
Lemma preprocess_image_grayscale_raises :
  @preprocess_image TestDouble.backend TestDouble.service
    (NDArray [4; 4] (repeat 0%Z 16))
  = Raise (Exc RuntimeError broadcast_mismatch).
Proof.
  exact (@preprocess_image_grayscale TestDouble.backend TestDouble.service
           (NDArray [4; 4] (repeat 0%Z 16)) 4 4 eq_refl eq_refl).
Qed.

(** ** Postprocessing *)

Lemma trunc_nonneg (q : Q) : (0 <= q)%Q -> trunc q = Qfloor q.
Proof.
  destruct q as [n d]. unfold Qle, trunc, Qfloor. simpl.
  intros Hn. apply Z.quot_div_nonneg; lia.
Qed.

Lemma astype_uint8_in_range (q : Q) :
  (0 <= q)%Q -> (q < 256)%Q -> astype_uint8 q = Qfloor q.
Proof.
  intros H0 H1. unfold astype_uint8. rewrite trunc_nonneg by done.
  apply Z.mod_small. split.
  - change 0%Z with (Qfloor 0). by apply Qfloor_resp_le.
  - assert (Hlt : (inject_Z (Qfloor q) < inject_Z 256)%Q).
    { eapply Qle_lt_trans; [apply Qfloor_le|done]. }
    by rewrite <- Zlt_Qlt in Hlt.
Qed.

Lemma scaled_probability (p : Q) :
  (0 < p)%Q -> (p < 1)%Q ->
  astype_uint8 (p * 255)%Q = Qfloor (p * 255)%Q /\
  (0 <= Qfloor (p * 255)%Q <= 254)%Z.
Proof.
  intros H0 H1.
  assert (Hlo : (0 <= p * 255)%Q).
  { apply Qmult_le_0_compat; [by apply Qlt_le_weak|done]. }
  assert (Hhi : (p * 255 < 255)%Q).
  { apply Qlt_le_trans with (1 * 255)%Q; [|discriminate].
    apply Qmult_lt_compat_r; done. }
  split.
  - apply astype_uint8_in_range; [done|].
    eapply Qlt_trans; [exact Hhi|done].
  - split.
    + change 0%Z with (Qfloor 0). by apply Qfloor_resp_le.
    + assert (Hlt : (inject_Z (Qfloor (p * 255)%Q) < inject_Z 255)%Q).
      { eapply Qle_lt_trans; [apply Qfloor_le|done]. }
      rewrite <- Zlt_Qlt in Hlt. lia.
Qed.

(** C5 (as amended): when no resize follows, every score [s] whose
    probability [p = sigmoid s] lies in (0,1) becomes the mask value
    [floor (p * 255)]: the cast truncates, it does not round to nearest.  The
    value lies in [0, 254], so nothing has to be clipped. *)
Theorem postprocess_output_truncates `{Backend} (self : ModelService)
    (output : ndarray Q) (original_shape : list nat) :
  Forall (fun s => (0 < sigmoid s)%Q /\ (sigmoid s < 1)%Q) (data output) ->
  take 2 original_shape = shape (squeeze output) ->
  exists mask,
    postprocess_output self output original_shape = Ok mask /\
    data mask = map (fun s => Qfloor (sigmoid s * 255)%Q) (data output) /\
    Forall (fun v => (0 <= v <= 254)%Z) (data mask).
Proof.
  intros Hp Hshape. unfold postprocess_output.
  rewrite log_and_reraise_id. cbn [shape data squeeze].
  rewrite bool_decide_false by (intros Hne; apply Hne; exact Hshape).
  eexists. split; [reflexivity|]. cbn [data].
  rewrite map_map. split.
  - apply map_ext_Forall. eapply Forall_impl; [exact Hp|].
    intros s [H0 H1]. by apply scaled_probability.
  - apply Forall_map. eapply Forall_impl; [exact Hp|].
    intros s [H0 H1]. cbn beta.
    destruct (scaled_probability (sigmoid s) H0 H1) as [-> Hr]. exact Hr.
Qed.

Lemma postprocess_output_truncates_witness :
  Forall (fun s => (0 < @sigmoid TestDouble.backend s)%Q /\
                   (@sigmoid TestDouble.backend s < 1)%Q)
    (data (NDArray [1; 1; 2; 2] [0; 1; -1; 3]%Q)) /\
  take 2 [2; 2] = shape (squeeze (NDArray [1; 1; 2; 2] [0; 1; -1; 3]%Q)) /\
  exists mask,
    @postprocess_output TestDouble.backend TestDouble.service
      (NDArray [1; 1; 2; 2] [0; 1; -1; 3]%Q) [2; 2] = Ok mask /\
    data mask =
      map (fun s => Qfloor (@sigmoid TestDouble.backend s * 255)%Q)
        (data (NDArray [1; 1; 2; 2] [0; 1; -1; 3]%Q)) /\
    Forall (fun v => (0 <= v <= 254)%Z) (data mask).
Proof.
  assert (Hp : Forall (fun s => (0 < @sigmoid TestDouble.backend s)%Q /\
                                (@sigmoid TestDouble.backend s < 1)%Q)
                 (data (NDArray [1; 1; 2; 2] [0; 1; -1; 3]%Q))).
  { repeat constructor. }
  split; [exact Hp|]. split; [reflexivity|].
  apply (@postprocess_output_truncates TestDouble.backend TestDouble.service
           (NDArray [1; 1; 2; 2] [0; 1; -1; 3]%Q) [2; 2] Hp eq_refl).
Defined.

(** C5 (as stated) fails at score 0: the probability is 1/2, the nearest
    integer to 127.5 is 128, and the mask holds 127. *)
Lemma postprocess_output_not_rounded :
  @postprocess_output TestDouble.backend TestDouble.service
    (NDArray [1; 1; 2; 2] [0; 0; 0; 0]%Q) [2; 2]
  = Ok (NDArray [2; 2] [127; 127; 127; 127]%Z) /\
  (@sigmoid TestDouble.backend 0 == 1 # 2)%Q /\
  round_to_nearest (@sigmoid TestDouble.backend 0 * 255)%Q = 128%Z.
Proof. split; [|split]; reflexivity. Qed.

(** C8: for every score map of shape (1, 1, 560, 690) and every original
    shape of positive height and width, [postprocess_output] returns a mask
    whose spatial dimensions are that height and width, resized or (at
    560x690) left as it is. *)
Theorem postprocess_output_mask_shape `{Backend} (self : ModelService)
    (output : ndarray Q) (h w : nat) (rest : list nat) :
  shape output = [1; 1; 560; 690] ->
  length (data output) = numel (shape output) ->
  0 < h -> 0 < w ->
  exists mask,
    postprocess_output self output (h :: w :: rest) = Ok mask /\
    shape mask = [h; w] /\
    length (data mask) = h * w /\
    (mask = NDArray [560; 690]
              (map (fun p => astype_uint8 (p * 255)%Q)
                 (map sigmoid (data output)))
     <-> (h = 560 /\ w = 690)).
Proof.
  intros Hs Hlen Hh Hw. unfold postprocess_output.
  rewrite log_and_reraise_id. unfold squeeze. cbn [shape data]. rewrite Hs.
  cbn [List.filter Nat.eqb negb firstn].
  case_bool_decide as Hne.
  - cbn [tuple_item lookup list_lookup mbind result_bind].
    unfold cv2_resize. cbn [shape].
    rewrite numel_eqb_nonzero by (repeat constructor; lia).
    destruct (w =? 0) eqn:Ew; [apply Nat.eqb_eq in Ew; lia|].
    destruct (h =? 0) eqn:Eh; [apply Nat.eqb_eq in Eh; lia|].
    cbn [orb]. eexists. split; [reflexivity|].
    unfold tabulate. cbn [shape data]. split; [reflexivity|]. split.
    + rewrite length_map, length_seq. unfold numel, fold_right. lia.
    + split.
      * intros [= -> -> _]. by destruct Hne.
      * intros [-> ->]. by destruct Hne.
  - injection Hne as -> ->.
    eexists. split; [reflexivity|]. cbn [shape data].
    split; [reflexivity|]. split.
    + rewrite !length_map, Hlen, Hs. unfold numel, fold_right. lia.
    + split; [done|]. reflexivity.
Qed.

Lemma postprocess_output_mask_shape_witness :
  shape (tabulate [1; 1; 560; 690] (fun _ => 0%Q)) = [1; 1; 560; 690] /\
  length (data (tabulate [1; 1; 560; 690] (fun _ => 0%Q)))
    = numel (shape (tabulate [1; 1; 560; 690] (fun _ => 0%Q))) /\
  0 < 4 /\ 0 < 3 /\
  exists mask,
    @postprocess_output TestDouble.backend TestDouble.service
      (tabulate [1; 1; 560; 690] (fun _ => 0%Q)) [4; 3; 3] = Ok mask /\
    shape mask = [4; 3] /\
    length (data mask) = 4 * 3 /\
    (mask = NDArray [560; 690]
              (map (fun p => astype_uint8 (p * 255)%Q)
                 (map (@sigmoid TestDouble.backend)
                    (data (tabulate [1; 1; 560; 690] (fun _ => 0%Q)))))
     <-> (4 = 560 /\ 3 = 690)).
Proof.
  assert (Hlen : length (data (tabulate [1; 1; 560; 690] (fun _ => 0%Q)))
                 = numel (shape (tabulate [1; 1; 560; 690] (fun _ => 0%Q)))).
  { unfold tabulate. cbn [data shape]. by rewrite length_map, length_seq. }
  split; [reflexivity|]. split; [exact Hlen|].
  split; [lia|]. split; [lia|].
  apply (@postprocess_output_mask_shape TestDouble.backend TestDouble.service
           (tabulate [1; 1; 560; 690] (fun _ => 0%Q)) 4 3 [3]
           eq_refl Hlen); lia.
Defined.

(** ** Overlay *)

Lemma broadcastable_2d (mh mw h w : nat) :
  broadcastable [mh; mw] [h; w] =
  ((mh =? h) || (mh =? 1)) && ((mw =? w) || (mw =? 1)).
Proof. simpl. by rewrite andb_true_r. Qed.

(** A two-dimensional mask fits a three-dimensional image when each of its
    axes equals the image's or has length one; then the overlay is computed
    and has the image's shape. *)
Lemma overlay_mask_broadcasts `{Backend} (self : ModelService)
    (image mask : ndarray Z) (alpha : Q) (h w c mh mw : nat) :
  shape image = [h; w; c] -> 2 <= c ->
  shape mask = [mh; mw] ->
  (mh = h \/ mh = 1) -> (mw = w \/ mw = 1) ->
  exists overlay,
    overlay_mask self image mask alpha = Ok overlay /\
    shape overlay = [h; w; c].
Proof.
  intros Hi Hc Hm Hh Hw. unfold overlay_mask.
  rewrite log_and_reraise_id, Hm. cbn [length Nat.eqb mbind result_bind].
  unfold setitem_channel, zeros_like. cbn [shape data]. rewrite Hi.
  destruct (c <=? 1) eqn:Ec; [apply Nat.leb_le in Ec; lia|].
  rewrite Hm. unfold align_shape. cbn [length Nat.leb Nat.sub repeat app].
  rewrite broadcastable_2d.
  replace ((mh =? h) || (mh =? 1)) with true
    by (symmetry; apply orb_true_iff; rewrite !Nat.eqb_eq; done).
  replace ((mw =? w) || (mw =? 1)) with true
    by (symmetry; apply orb_true_iff; rewrite !Nat.eqb_eq; done).
  cbn [andb mbind result_bind]. unfold addWeighted. cbn [shape].
  rewrite Hi, bool_decide_true by done.
  eexists. split; [reflexivity|]. reflexivity.
Qed.

(** C6 (as amended): for a three-dimensional image and a two-dimensional
    mask, [overlay_mask] raises whenever some mask axis differs from the
    image's and is not of length one; nothing is cropped or padded then. *)
Theorem overlay_mask_mismatch_raises `{Backend} (self : ModelService)
    (image mask : ndarray Z) (alpha : Q) (h w c mh mw : nat) :
  shape image = [h; w; c] ->
  shape mask = [mh; mw] ->
  (mh <> h /\ mh <> 1) \/ (mw <> w /\ mw <> 1) ->
  exists e, overlay_mask self image mask alpha = Raise e.
Proof.
  intros Hi Hm Hbad. unfold overlay_mask.
  rewrite log_and_reraise_id, Hm. cbn [length Nat.eqb mbind result_bind].
  unfold setitem_channel, zeros_like. cbn [shape data]. rewrite Hi.
  destruct (c <=? 1); [eauto|].
  rewrite Hm. unfold align_shape. cbn [length Nat.leb Nat.sub repeat app].
  rewrite broadcastable_2d.
  assert (Hb : ((mh =? h) || (mh =? 1)) && ((mw =? w) || (mw =? 1)) = false).
  { apply andb_false_iff. rewrite !orb_false_iff, !Nat.eqb_neq. tauto. }
  rewrite Hb. cbn [mbind result_bind]. eauto.
Qed.

Lemma overlay_mask_mismatch_raises_witness :
  shape (NDArray [2; 2; 3] (repeat 9%Z 12)) = [2; 2; 3] /\
  shape (NDArray [3; 2] (repeat 255%Z 6)) = [3; 2] /\
  ((3 <> 2 /\ 3 <> 1) \/ (2 <> 2 /\ 2 <> 1)) /\
  exists e,
    @overlay_mask TestDouble.backend TestDouble.service
      (NDArray [2; 2; 3] (repeat 9%Z 12))
      (NDArray [3; 2] (repeat 255%Z 6)) (1 # 2) = Raise e.
Proof.
  assert (Hbad : (3 <> 2 /\ 3 <> 1) \/ (2 <> 2 /\ 2 <> 1)).
  { left. split; lia. }
  split; [reflexivity|]. split; [reflexivity|]. split; [exact Hbad|].
  apply (@overlay_mask_mismatch_raises TestDouble.backend TestDouble.service
           (NDArray [2; 2; 3] (repeat 9%Z 12))
           (NDArray [3; 2] (repeat 255%Z 6)) (1 # 2) 2 2 3 3 2
           eq_refl eq_refl Hbad).
Defined.

(** C6 (as stated) fails for a 1x1 mask on a 2x2 image: the spatial
    dimensions differ, nothing is raised, and the single mask value is
    spread over every pixel of the green channel. *)
Lemma overlay_mask_broadcasts_small_mask :
  @overlay_mask TestDouble.backend TestDouble.service
    (NDArray [2; 2; 3] [10; 20; 30; 40; 50; 60; 70; 80; 90; 100; 110; 120]%Z)
    (NDArray [1; 1] [255]%Z) (1 # 2)
  = Ok (NDArray [2; 2; 3]
          [5; 138; 15; 20; 152; 30; 35; 168; 45; 50; 182; 60]%Z).
Proof. reflexivity. Qed.

(** ** Frame pipeline *)

(** C7: [process_image] is all-or-nothing.  It either returns a dictionary
    holding exactly the mask, the overlay and the processing time, or raises
    the error of the first stage that failed; no other outcome exists. *)
Theorem process_image_all_or_nothing `{Backend} (self : ModelService)
    (image : ndarray Z) (clk : clock) :
  match fst (process_image self image clk) with
  | Ok res => complete_result self image res
  | Raise e => originating_error self image e
  end.
Proof.
  unfold process_image. cbn [time_time].
  destruct (preprocess_image self image) as [t|e] eqn:Hpre;
    cbn [mbind result_bind fst]; [|by apply preprocess_failed].
  destruct (call (model self) t) as [o|e] eqn:Hinf;
    cbn [mbind result_bind fst]; [|by eapply inference_failed].
  destruct (postprocess_output self o (shape image)) as [m|e] eqn:Hpost;
    cbn [mbind result_bind fst]; [|by eapply postprocess_failed].
  destruct (overlay_mask self image m default_alpha) as [ov|e] eqn:Hov;
    cbn [mbind result_bind fst]; [|by eapply overlay_failed].
  exists t, o, m, ov. eexists.
  do 4 (split; [done|]).
  split; [by rewrite lookup_insert_eq|].
  split; [by rewrite lookup_insert_ne, lookup_insert_eq by done|].
  split; [by rewrite !lookup_insert_ne, lookup_insert_eq by done|].
  rewrite !dom_insert_L, dom_empty_L. set_solver.
Qed.

(** ** Health *)

(** C9: [/health] always answers [status: healthy] with [model_loaded]; the
    flag is false before startup and after a startup whose model load failed,
    and true after a startup that succeeded. *)
Theorem health_check_reports_model_loaded `{Backend} (env : torch_env)
    (connections : list nat) (clk : clock) :
  let before :=
    {| model_service := None;
       active_connections := connections;
       wall := clk |} in
  health_check before = health_body false /\
  health_check (snd (startup_event env before))
  = health_body (is_ok (fst (startup_event env before))).
Proof.
  intros before. split; [reflexivity|].
  unfold startup_event.
  destruct (ModelService_init env None) as [ms|e] eqn:Hinit;
    cbn [fst snd is_ok]; [|reflexivity].
  destruct (ModelService_init_fields _ _ _ Hinit) as (_ & Hm & _).
  unfold health_check, health_body. cbn [model_service].
  by rewrite bool_decide_true.
Qed.

(** ** Codec adapter *)

Lemma swap_rb_uint8 (d : list Z) : uint8_samples d -> uint8_samples (swap_rb d).
Proof.
  unfold uint8_samples. revert d. fix IH 1.
  intros [|c0 [|c1 [|c2 rest]]] Hd; try exact Hd.
  simpl. inversion Hd as [|? ? H0 Hd1]; subst.
  inversion Hd1 as [|? ? H1 Hd2]; subst.
  inversion Hd2 as [|? ? H2 Hd3]; subst.
  do 3 (constructor; [done|]). by apply IH.
Qed.

(** C10: for every [uint8] image that is two-dimensional or has three
    channels (and positive height and width), with a codec that is lossless
    on images of that size, decoding what [encode_image_to_base64] produced
    gives the image back: the channel swap of the encoder is undone by the
    swap of the decoder. *)
Theorem decode_encode_roundtrip `{Backend} `{Codec} (image : ndarray Z)
    (h w : nat) :
  shape image = [h; w] \/ shape image = [h; w; 3] ->
  0 < h -> 0 < w ->
  uint8_image image ->
  (forall im, width im = w -> height im = h ->
              pil_well_formed im -> lossless_on im) ->
  exists s,
    encode_image_to_base64 image "PNG" = Ok s /\
    decode_base64_to_image s = Ok image.
Proof.
  intros Hs Hh Hw [Hlen Hbytes] Hcodec.
  destruct image as [sh d]. cbn [shape data] in *.
  unfold encode_image_to_base64, decode_base64_to_image.
  rewrite !log_and_reraise_id.
  destruct Hs as [-> | ->]; cbn [shape length Nat.eqb].
  - unfold Image_fromarray. cbn [shape data mbind result_bind].
    destruct (Hcodec (PILImage L w h d)) as (buffer & Hsave & Hb64 & Hopen);
      [done|done| |].
    { split; [|done]. cbn [pixels height width mode bands].
      rewrite Hlen. unfold numel, fold_right. lia. }
    rewrite Hsave. cbn [mbind result_bind].
    eexists. split; [reflexivity|].
    rewrite Hb64. cbn [mbind result_bind]. rewrite Hopen.
    reflexivity.
  - unfold cvtColor at 1. cbn [shape data].
    rewrite numel_eqb_nonzero by (repeat constructor; lia).
    cbn [Nat.eqb mbind result_bind].
    unfold Image_fromarray. cbn [shape data Nat.eqb mbind result_bind].
    destruct (Hcodec (PILImage RGB w h (swap_rb d)))
      as (buffer & Hsave & Hb64 & Hopen); [done|done| |].
    { split; [|by apply swap_rb_uint8]. cbn [pixels height width mode bands].
      rewrite swap_rb_length, Hlen. unfold numel, fold_right. lia. }
    rewrite Hsave. cbn [mbind result_bind].
    eexists. split; [reflexivity|].
    rewrite Hb64. cbn [mbind result_bind]. rewrite Hopen.
    cbn [mbind result_bind np_array mode height width pixels bands shape
         length nth Nat.eqb andb].
    unfold cvtColor. cbn [shape data].
    rewrite numel_eqb_nonzero by (repeat constructor; lia).
    cbn [Nat.eqb]. by rewrite swap_rb_involutive.
Qed.

Lemma double_samples_roundtrip (d : list Z) :
  uint8_samples d ->
  map TestDouble.char_sample (map TestDouble.sample_char d) = d.
Proof.
  induction 1 as [|v d Hv _ IH]; [reflexivity|].
  cbn [map]. rewrite IH. f_equal.
  unfold TestDouble.char_sample, TestDouble.sample_char.
  rewrite N_ascii_embedding by lia. lia.
Qed.

(** The byte container of the test doubles keeps every image whose sides fit
    one byte. *)
Lemma double_codec_lossless (im : pil_image) :
  0 < width im < 256 -> 0 < height im < 256 ->
  pil_well_formed im ->
  @lossless_on TestDouble.codec im.
Proof.
  intros Hw Hh [_ Hpx]. unfold lossless_on.
  cbn [Image_save Image_open b64encode b64decode TestDouble.codec].
  unfold TestDouble.save. cbn [String.eqb Ascii.eqb Bool.eqb negb].
  destruct (width im =? 0) eqn:Ew; [apply Nat.eqb_eq in Ew; lia|].
  destruct (height im =? 0) eqn:Eh; [apply Nat.eqb_eq in Eh; lia|].
  cbn [orb]. eexists. split; [reflexivity|]. split; [reflexivity|].
  unfold TestDouble.open.
  assert (Hm : TestDouble.mode_of_char (TestDouble.mode_char (mode im))
               = Some (mode im)) by (by destruct (mode im)).
  rewrite Hm, !nat_ascii_embedding by lia.
  rewrite list_ascii_of_string_of_list_ascii, double_samples_roundtrip by done.
  by destruct im.
Qed.

Lemma decode_encode_roundtrip_witness :
  (shape (NDArray [2; 2; 3]
            [255; 0; 0; 0; 255; 0; 0; 0; 255; 10; 20; 30]%Z) = [2; 2] \/
   shape (NDArray [2; 2; 3]
            [255; 0; 0; 0; 255; 0; 0; 0; 255; 10; 20; 30]%Z) = [2; 2; 3]) /\
  0 < 2 /\ 0 < 2 /\
  uint8_image
    (NDArray [2; 2; 3] [255; 0; 0; 0; 255; 0; 0; 0; 255; 10; 20; 30]%Z) /\
  exists s,
    @encode_image_to_base64 TestDouble.backend TestDouble.codec
      (NDArray [2; 2; 3] [255; 0; 0; 0; 255; 0; 0; 0; 255; 10; 20; 30]%Z)
      "PNG" = Ok s /\
    @decode_base64_to_image TestDouble.backend TestDouble.codec s
    = Ok (NDArray [2; 2; 3]
            [255; 0; 0; 0; 255; 0; 0; 0; 255; 10; 20; 30]%Z).
Proof.
  assert (Hbytes : uint8_image
            (NDArray [2; 2; 3]
               [255; 0; 0; 0; 255; 0; 0; 0; 255; 10; 20; 30]%Z)).
  { split; [reflexivity|]. unfold uint8_samples. cbn [data].
    repeat (apply List.Forall_cons; [lia|]). apply List.Forall_nil. }
  split; [right; reflexivity|]. split; [lia|]. split; [lia|].
  split; [exact Hbytes|].
  apply (@decode_encode_roundtrip TestDouble.backend TestDouble.codec
           (NDArray [2; 2; 3]
              [255; 0; 0; 0; 255; 0; 0; 0; 255; 10; 20; 30]%Z) 2 2).
  - right; reflexivity.
  - lia.
  - lia.
  - exact Hbytes.
  - intros im Hw Hh Hpx. apply double_codec_lossless; [lia|lia|exact Hpx].
Defined.

(** The same round trip, run: a grayscale image through the test codec. *)
Example decode_encode_grayscale :
  (s ← @encode_image_to_base64 TestDouble.backend TestDouble.codec
         (NDArray [2; 3] [0; 50; 100; 150; 200; 250]%Z) "PNG";
   @decode_base64_to_image TestDouble.backend TestDouble.codec s)
  = Ok (NDArray [2; 3] [0; 50; 100; 150; 200; 250]%Z).
Proof. reflexivity. Qed.

(** ** Streaming session *)

Lemma list_remove_appended (x : nat) (l : list nat) :
  exists l', list_remove x (l ++ [x]) = Ok l'.
Proof.
  induction l as [|y l [l' IH]]; simpl.
  - rewrite Nat.eqb_refl. eauto.
  - destruct (x =? y); [eauto|]. rewrite IH. eauto.
Qed.

Section SessionFacts.
Context `{Backend} `{Codec}.

Lemma send_text_delivers (ws : WebSocket) (message : response) :
  send_outcome ws (sends ws) = None ->
  exists ws',
    send_text ws message = (Ok tt, ws') /\
    sent ws' = sent ws ++ [message] /\
    sends ws' = S (sends ws) /\
    send_outcome ws' = send_outcome ws.
Proof. intros Hok. unfold send_text. rewrite Hok. eauto. Qed.

Lemma try_frame_frame_count (image_data : pyval) (st : session) :
  frame_count (snd (try_frame image_data st)) = frame_count st.
Proof.
  unfold try_frame.
  destruct (strip_data_url image_data) as [b64|e]; [|reflexivity].
  destruct (decode_base64_to_image b64) as [image_np|e]; [|reflexivity].
  destruct (model_service (srv st)) as [ms|]; [|reflexivity].
  destruct (process_image ms image_np (wall (srv st))) as [[res|e] clk];
    [|reflexivity].
  cbn [with_srv frame_count].
  destruct (success_response res (frame_count st)) as [reply|e];
    [|reflexivity].
  destruct (send_text _ _) as [r ws]. reflexivity.
Qed.

Lemma after_send_frame_count (r : result unit * WebSocket) (st : session) :
  frame_count (snd (after_send r st)) = frame_count st.
Proof. by destruct r as [[[]|e] ws]. Qed.

(** Every received text frame advances the counter by one, whatever
    becomes of it. *)
Lemma loop_body_frame_count (loads : result pyval) (st : session) :
  frame_count (snd (loop_body loads st)) = frame_count st + 1.
Proof.
  unfold loop_body. destruct loads as [frame_data|e].
  - destruct (py_get frame_data "image") as [image_data|e]; [|reflexivity].
    destruct (negb (truthy image_data)).
    + by rewrite after_send_frame_count.
    + match goal with |- context [try_frame ?v ?s] =>
        pose proof (try_frame_frame_count v s) as Hc;
        destruct (try_frame v s) as [[[]|e] st']
      end; cbn [snd] in *.
      * exact Hc.
      * by rewrite after_send_frame_count.
  - destruct (exc_type e); try reflexivity.
    by rewrite after_send_frame_count.
Qed.

(** While the session is [Open], the counter is the number of frames
    received. *)
Lemma receive_loop_open_frame_count (inbox : list received) (st : session) :
  fst (receive_loop inbox st) = Open ->
  frame_count (snd (receive_loop inbox st)) = frame_count st + length inbox.
Proof.
  revert st. induction inbox as [|[loads|e] inbox IH]; intros st; simpl.
  - intros _. lia.
  - pose proof (loop_body_frame_count loads st) as Hc.
    destruct (loop_body loads st) as [[|e] st']; cbn [snd] in Hc.
    + intros Hopen. rewrite (IH st' Hopen). lia.
    + unfold on_exception.
      destruct (disconnect _ _) as [[[]|e'] s']; discriminate.
  - unfold on_exception.
    destruct (disconnect _ _) as [[[]|e'] s']; discriminate.
Qed.

Lemma success_response_fields (res : gmap string rval) (n : nat)
    (reply : response) :
  success_response res n = Ok reply ->
  reply !! "success" = Some (PBool true) /\ echoes reply n.
Proof.
  unfold success_response, echoes.
  destruct (getitem res "mask") as [mask|e]; [|discriminate].
  cbn [mbind result_bind].
  destruct (encode_value mask) as [m64|e]; [|discriminate].
  cbn [mbind result_bind].
  destruct (getitem res "overlay") as [ov|e]; [|discriminate].
  cbn [mbind result_bind].
  destruct (encode_value ov) as [o64|e]; [|discriminate].
  cbn [mbind result_bind]. intros [= <-]. split.
  - by rewrite lookup_insert_eq.
  - by rewrite !lookup_insert_ne, lookup_insert_eq by done.
Qed.

(** With a transport that delivers, the inner [try] either sends one success
    reply that echoes the frame number or raises before anything is sent. *)
Lemma try_frame_outcome (image_data : pyval) (st : session) :
  (forall k, send_outcome (websocket st) k = None) ->
  let out := try_frame image_data st in
  send_outcome (websocket (snd out)) = send_outcome (websocket st) /\
  match fst out with
  | Ok _ =>
      exists reply,
        sent (websocket (snd out)) = sent (websocket st) ++ [reply] /\
        reply !! "success" = Some (PBool true) /\
        echoes reply (frame_count st)
  | Raise _ => sent (websocket (snd out)) = sent (websocket st)
  end.
Proof.
  intros Hsend. unfold try_frame.
  destruct (strip_data_url image_data) as [b64|e]; [|by split].
  destruct (decode_base64_to_image b64) as [image_np|e]; [|by split].
  destruct (model_service (srv st)) as [ms|]; [|by split].
  destruct (process_image ms image_np (wall (srv st))) as [[res|e] clk];
    [|by split].
  cbn [with_srv frame_count websocket].
  destruct (success_response res (frame_count st)) as [reply|e] eqn:Hreply;
    [|by split].
  destruct (send_text_delivers (websocket st) reply (Hsend _))
    as (ws' & -> & Hsent & _ & Hout).
  cbn [fst snd with_websocket websocket]. split; [done|].
  exists reply. split; [done|].
  exact (success_response_fields _ _ _ Hreply).
Qed.

(** A failed frame the loop has a handler for is answered by exactly one
    reply and the loop goes on; the reply is error-tagged unless the frame
    was processed. *)
Lemma loop_body_guarded (loads : result pyval) (st : session) :
  (forall k, send_outcome (websocket st) k = None) ->
  guarded_frame (Message loads) ->
  exists reply st',
    loop_body loads st = (NextIteration, st') /\
    sent (websocket st') = sent (websocket st) ++ [reply] /\
    (forall k, send_outcome (websocket st') k = None) /\
    (error_tagged reply \/ echoes reply (frame_count st + 1)).
Proof.
  intros Hsend Hg. unfold loop_body.
  set (st1 := {| frame_count := frame_count st + 1;
                 websocket := websocket st; srv := srv st |}).
  destruct loads as [frame_data|e]; cbn [guarded_frame] in Hg.
  - destruct frame_data as [| | | | | |members]; try done.
    cbn [py_get].
    destruct (negb (truthy _)).
    + destruct (send_text_delivers (websocket st1) no_image_response
                  (Hsend _)) as (ws' & -> & Hsent & _ & Hout).
      eexists _, _. split; [reflexivity|]. cbn [with_websocket websocket].
      split; [done|]. split; [by intros k; rewrite Hout|].
      left. by unfold error_tagged, no_image_response; rewrite lookup_insert_eq.
    + match goal with |- context [try_frame ?v st1] =>
        pose proof (try_frame_outcome v st1 Hsend) as [Hout Hres];
        destruct (try_frame v st1) as [[[]|e] st']
      end; cbn [fst snd] in *.
      * destruct Hres as (reply & Hsent & _ & Hecho).
        eexists _, _. split; [reflexivity|]. split; [done|].
        split; [by intros k; rewrite Hout|]. by right.
      * assert (Hsend' : send_outcome (websocket st') (sends (websocket st'))
                         = None) by (by rewrite Hout).
        destruct (send_text_delivers (websocket st')
                    (processing_failed_response e (frame_count st')) Hsend')
          as (ws' & -> & Hsent & _ & Hout').
        eexists _, _. split; [reflexivity|]. cbn [with_websocket websocket].
        split; [by rewrite Hsent, Hres|].
        split; [by intros k; rewrite Hout', Hout|].
        left. by unfold error_tagged, processing_failed_response;
          rewrite lookup_insert_eq.
  - rewrite Hg.
    destruct (send_text_delivers (websocket st1) invalid_json_response
                (Hsend _)) as (ws' & -> & Hsent & _ & Hout).
    eexists _, _. split; [reflexivity|]. cbn [with_websocket websocket].
    split; [done|]. split; [by intros k; rewrite Hout|].
    left. by unfold error_tagged, invalid_json_response;
      rewrite lookup_insert_eq.
Qed.

(** A frame whose JSON is anything but an object is the case without a
    handler: nothing is sent and the exception leaves the loop. *)
Lemma loop_body_non_object (frame_data : pyval) (st : session) :
  match frame_data with
  | PDict _ => True
  | _ =>
      exists e st',
        loop_body (Ok frame_data) st = (Leaves e, st') /\
        exc_type e = AttributeError /\
        websocket st' = websocket st
  end.
Proof. destruct frame_data; try done; by eexists _, _. Qed.

(** A session whose frames are all of that kind never closes, failed
    frames or not, and has answered every frame. *)
Lemma receive_loop_guarded_stays_open (inbox : list received) (st : session) :
  (forall k, send_outcome (websocket st) k = None) ->
  Forall guarded_frame inbox ->
  fst (receive_loop inbox st) = Open /\
  length (sent (websocket (snd (receive_loop inbox st))))
  = length (sent (websocket st)) + length inbox.
Proof.
  revert st. induction inbox as [|r inbox IH]; intros st Hsend Hg.
  - simpl. split; [done|lia].
  - inversion Hg as [|? ? Hr Hrest]; subst.
    destruct r as [loads|e]; [|done].
    destruct (loop_body_guarded loads st Hsend Hr)
      as (reply & st' & Hbody & Hsent & Hsend' & _).
    cbn [receive_loop]. rewrite Hbody.
    destruct (IH st' Hsend' Hrest) as [Hopen Hlen].
    split; [done|]. rewrite Hlen, Hsent, length_app. simpl. lia.
Qed.

End SessionFacts.

(** C1 (the code at the failing input): a text frame whose JSON is not an
    object, here the array [[]], is not answered; the exception leaves the
    receive loop, the session is closed after one frame, and whatever frames
    follow are never read. *)
Theorem non_object_frame_closes_session `{Backend} `{Codec} (s : server)
    (later : list received) :
  let out :=
    websocket_endpoint TestDouble.socket
      (Message (Ok (PList [])) :: later) s in
  fst out = Closed (Exc AttributeError "object has no attribute 'get'") /\
  sent (websocket (snd out)) = [] /\
  frame_count (snd out) = 1.
Proof.
  intros out. subst out.
  unfold websocket_endpoint, connect.
  cbn [TestDouble.socket accept_outcome ws_id receive_loop loop_body py_get
       frame_count websocket srv Nat.add].
  unfold on_exception, disconnect.
  cbn [websocket srv active_connections ws_id TestDouble.socket].
  destruct (list_remove_appended 1 (active_connections s)) as [l' ->].
  by cbn.
Qed.

(** C2 (the code at the failing input): text that is not JSON and a JSON
    object without image data are both counted, the counter stands at 2 and
    the session is open, but neither reply carries a [frame_number]. *)
Theorem untagged_replies_lack_frame_number `{Backend} `{Codec} (s : server)
    (msg : string) :
  let out :=
    websocket_endpoint TestDouble.socket
      [Message (Raise (Exc JSONDecodeError msg)); Message (Ok (PDict []))] s in
  fst out = Open /\
  frame_count (snd out) = 2 /\
  sent (websocket (snd out)) = [invalid_json_response; no_image_response] /\
  invalid_json_response !! "frame_number" = None /\
  no_image_response !! "frame_number" = None.
Proof.
  intros out. subst out. split; [|split; [|split]]; [reflexivity..|].
  split; vm_compute; reflexivity.
Qed.

(** In every reply that does carry a frame number, the number is the count
    of frames received so far. *)
Lemma processing_failed_response_echoes (e : exn) (n : nat) :
  error_tagged (processing_failed_response e n) /\
  echoes (processing_failed_response e n) n.
Proof.
  unfold error_tagged, echoes, processing_failed_response. split.
  - by rewrite lookup_insert_eq.
  - by rewrite !lookup_insert_ne, lookup_insert_eq by done.
Qed.

(** The scenario of the specification, run on the test doubles: five
    well-formed frames, one that is not JSON, one more well-formed frame.
    Seven replies come back and the session is still open; the sixth is
    error-tagged, and it is the one reply without a frame number. *)
Example streaming_scenario :
  let out :=
    @websocket_endpoint TestDouble.backend TestDouble.codec TestDouble.socket
      (repeat TestDouble.red_frame 5
         ++ [TestDouble.garbled_frame; TestDouble.red_frame])
      TestDouble.app in
  fst out = Open /\
  frame_count (snd out) = 7 /\
  map (fun reply : response => reply !! "success")
    (sent (websocket (snd out)))
  = [Some (PBool true); Some (PBool true); Some (PBool true);
     Some (PBool true); Some (PBool true); Some (PBool false);
     Some (PBool true)] /\
  map (fun reply : response => reply !! "frame_number")
    (sent (websocket (snd out)))
  = [Some (PInt 1); Some (PInt 2); Some (PInt 3); Some (PInt 4);
     Some (PInt 5); None; Some (PInt 7)].
Proof. repeat split; reflexivity. Qed.

(** The same session with the array [[]] in place of the garbled frame: it
    ends there, with five replies. *)
Example streaming_scenario_non_object :
  let out :=
    @websocket_endpoint TestDouble.backend TestDouble.codec TestDouble.socket
      (repeat TestDouble.red_frame 5
         ++ [Message (Ok (PList [])); TestDouble.red_frame])
      TestDouble.app in
  fst out = Closed (Exc AttributeError "object has no attribute 'get'") /\
  frame_count (snd out) = 6 /\
  length (sent (websocket (snd out))) = 5 /\
  active_connections (srv (snd out)) = [].
Proof. repeat split; reflexivity. Qed.

(** ** Channel order on the two decode paths *)

(** On a 1x1 three-channel image the first sample of the overlay depends on
    the first sample of the image only: the mask is written to the second
    channel. *)
Lemma overlay_mask_first_sample `{Backend} (self : ModelService)
    (c0 c1 c2 : Z) (mask overlay : ndarray Z) (alpha : Q) :
  overlay_mask self (NDArray [1; 1; 3] [c0; c1; c2]) mask alpha = Ok overlay ->
  head (data overlay)
  = Some (saturate_uint8
            (cvRound (inject_Z c0 * (1 - alpha) + inject_Z 0 * alpha + 0)%Q)).
Proof.
  unfold overlay_mask. rewrite log_and_reraise_id.
  destruct (if length (shape mask) =? 3 then cvtColor mask COLOR_BGR2GRAY
            else Ok mask) as [mask'|e]; [|discriminate].
  cbn [mbind result_bind].
  unfold setitem_channel, zeros_like. cbn [shape data Nat.leb].
  destruct (align_shape (shape mask') [1; 1]) as [vs|]; [|discriminate].
  destruct (broadcastable vs [1; 1]); [|discriminate].
  cbn [mbind result_bind]. unfold addWeighted. cbn [shape data].
  rewrite bool_decide_true by done.
  intros [= <-]. reflexivity.
Qed.

(** C4 (the code at the failing input): the same bytes, a 1x1 PNG holding
    the red pixel (200, 0, 0), reach the frame pipeline as [[200, 0, 0]] on
    the upload path and as [[0, 0, 200]] on the streaming path, and whenever
    the pipeline succeeds on both, the two overlays differ. *)
Theorem upload_and_streaming_paths_differ `{Backend} `{Codec}
    (ms : ModelService) (clk clk' : clock) (contents : string) :
  Image_open contents = Ok (PILImage RGB 1 1 [200; 0; 0]%Z) ->
  b64decode (b64encode contents) = Ok contents ->
  (image ← Image_open contents; Ok (np_array image))
  = Ok (NDArray [1; 1; 3] [200; 0; 0]%Z) /\
  decode_base64_to_image (b64encode contents)
  = Ok (NDArray [1; 1; 3] [0; 0; 200]%Z) /\
  forall uploaded streamed,
    fst (process_image ms (NDArray [1; 1; 3] [200; 0; 0]%Z) clk)
      = Ok uploaded ->
    fst (process_image ms (NDArray [1; 1; 3] [0; 0; 200]%Z) clk')
      = Ok streamed ->
    uploaded !! "overlay" <> streamed !! "overlay".
Proof.
  intros Hopen Hb64. split; [by rewrite Hopen|]. split.
  { unfold decode_base64_to_image.
    by rewrite log_and_reraise_id, Hb64; cbn [mbind result_bind];
      rewrite Hopen. }
  intros uploaded streamed. unfold process_image. cbn [time_time].
  destruct (preprocess_image ms (NDArray [1; 1; 3] [200; 0; 0]%Z)) as [t1|e];
    [|discriminate].
  destruct (preprocess_image ms (NDArray [1; 1; 3] [0; 0; 200]%Z)) as [t2|e];
    [|discriminate].
  cbn [mbind result_bind].
  destruct (call (model ms) t1) as [o1|e]; [|discriminate].
  destruct (call (model ms) t2) as [o2|e]; [|discriminate].
  cbn [mbind result_bind shape].
  destruct (postprocess_output ms o1 [1; 1; 3]) as [m1|e]; [|discriminate].
  destruct (postprocess_output ms o2 [1; 1; 3]) as [m2|e]; [|discriminate].
  cbn [mbind result_bind].
  destruct (overlay_mask ms _ m1 default_alpha) as [ov1|e] eqn:Hov1;
    [|discriminate].
  destruct (overlay_mask ms _ m2 default_alpha) as [ov2|e] eqn:Hov2;
    [|discriminate].
  cbn [mbind result_bind fst]. intros [= <-] [= <-].
  do 2 (rewrite (lookup_insert_ne _ "mask" "overlay") by done;
        rewrite lookup_insert_eq).
  intros [= Heq].
  apply overlay_mask_first_sample in Hov1, Hov2.
  assert (Hhead : head (data ov1) = head (data ov2)) by congruence.
  rewrite Hov1, Hov2 in Hhead. vm_compute in Hhead. discriminate.
Qed.

Lemma upload_and_streaming_paths_differ_witness :
  @Image_open TestDouble.codec TestDouble.red_pixel_png
  = Ok (PILImage RGB 1 1 [200; 0; 0]%Z) /\
  @b64decode TestDouble.codec
    (@b64encode TestDouble.codec TestDouble.red_pixel_png)
  = Ok TestDouble.red_pixel_png /\
  forall uploaded streamed,
    fst (@process_image TestDouble.backend TestDouble.service
           (NDArray [1; 1; 3] [200; 0; 0]%Z) TestDouble.wall_clock)
      = Ok uploaded ->
    fst (@process_image TestDouble.backend TestDouble.service
           (NDArray [1; 1; 3] [0; 0; 200]%Z) TestDouble.wall_clock)
      = Ok streamed ->
    uploaded !! "overlay" <> streamed !! "overlay".
Proof.
  split; [reflexivity|]. split; [reflexivity|].
  apply (@upload_and_streaming_paths_differ TestDouble.backend
           TestDouble.codec TestDouble.service TestDouble.wall_clock
           TestDouble.wall_clock TestDouble.red_pixel_png); reflexivity.
Defined.

(** Both runs do succeed with the test doubles, and the overlays are the
    mirror image of one another. *)
Example process_image_red_upload :
  fst (@process_image TestDouble.backend TestDouble.service
         (NDArray [1; 1; 3] [200; 0; 0]%Z) TestDouble.wall_clock)
  = Ok (<["mask" := RArray (NDArray [1; 1] [127%Z])]>
        (<["overlay" := RArray (NDArray [1; 1; 3] [100; 64; 0]%Z)]>
         (<["processing_time" := RFloat (1 - 0)%Q]> ∅))).
Proof. reflexivity. Qed.

Example process_image_red_streaming :
  fst (@process_image TestDouble.backend TestDouble.service
         (NDArray [1; 1; 3] [0; 0; 200]%Z) TestDouble.wall_clock)
  = Ok (<["mask" := RArray (NDArray [1; 1] [127%Z])]>
        (<["overlay" := RArray (NDArray [1; 1; 3] [0; 64; 100]%Z)]>
         (<["processing_time" := RFloat (1 - 0)%Q]> ∅))).
Proof. reflexivity. Qed.

(** What the network is given differs as well: the red plane of the input
    tensor is empty on the upload path and holds the pixel on the streaming
    path. *)
Example network_input_red_plane :
  (t ← @preprocess_image TestDouble.backend TestDouble.service
         (NDArray [1; 1; 3] [200; 0; 0]%Z);
   Ok (shape t, head (data t)))
  = Ok ([1; 3; 560; 690], Some (0 # 255)%Q) /\
  (t ← @preprocess_image TestDouble.backend TestDouble.service
         (NDArray [1; 1; 3] [0; 0; 200]%Z);
   Ok (shape t, head (data t)))
  = Ok ([1; 3; 560; 690], Some (200 # 255)%Q).
Proof. split; reflexivity. Qed.

(** And so do the pictures sent back: encoded, the upload overlay shows the
    pixel as (0, 64, 100), the streaming overlay as (100, 64, 0). *)
Example encoded_overlays_red_pixel :
  (s ← @encode_image_to_base64 TestDouble.backend TestDouble.codec
         (NDArray [1; 1; 3] [100; 64; 0]%Z) "PNG";
   b ← @b64decode TestDouble.codec s;
   @Image_open TestDouble.codec b)
  = Ok (PILImage RGB 1 1 [0; 64; 100]%Z) /\
  (s ← @encode_image_to_base64 TestDouble.backend TestDouble.codec
         (NDArray [1; 1; 3] [0; 64; 100]%Z) "PNG";
   b ← @b64decode TestDouble.codec s;
   @Image_open TestDouble.codec b)
  = Ok (PILImage RGB 1 1 [100; 64; 0]%Z).
Proof. split; reflexivity. Qed.

(** * Further properties of the code *)

(** ** The streaming endpoint *)

Section SessionInvariants.
Context `{Backend} `{Codec}.

(** The inner [try] touches the clock and the socket, nothing else. *)
Lemma try_frame_globals (image_data : pyval) (st : session) :
  model_service (srv (snd (try_frame image_data st)))
    = model_service (srv st) /\
  active_connections (srv (snd (try_frame image_data st)))
    = active_connections (srv st) /\
  ws_id (websocket (snd (try_frame image_data st))) = ws_id (websocket st).
Proof.
  unfold try_frame.
  destruct (strip_data_url image_data) as [b64|e]; [|done].
  destruct (decode_base64_to_image b64) as [image_np|e]; [|done].
  destruct (model_service (srv st)) as [ms|] eqn:Hms;
    [|by rewrite ?Hms].
  destruct (process_image ms image_np (wall (srv st))) as [[res|e] clk];
    [|by cbn; rewrite ?Hms].
  cbn [with_srv frame_count websocket srv].
  destruct (success_response res (frame_count st)) as [reply|e];
    [|by cbn; rewrite ?Hms].
  unfold send_text.
  destruct (send_outcome (websocket st) (sends (websocket st)));
    by cbn; rewrite ?Hms.
Qed.

Lemma after_send_globals (ws : WebSocket) (message : response)
    (st : session) :
  ws_id ws = ws_id (websocket st) ->
  srv (snd (after_send (send_text ws message) st)) = srv st /\
  ws_id (websocket (snd (after_send (send_text ws message) st)))
    = ws_id (websocket st).
Proof.
  intros Hid. unfold send_text.
  by destruct (send_outcome ws (sends ws)).
Qed.

(** One pass through the loop body leaves the model service, the list of
    connections and the identity of the socket as they were. *)
Lemma loop_body_globals (loads : result pyval) (st : session) :
  model_service (srv (snd (loop_body loads st))) = model_service (srv st) /\
  active_connections (srv (snd (loop_body loads st)))
    = active_connections (srv st) /\
  ws_id (websocket (snd (loop_body loads st))) = ws_id (websocket st).
Proof.
  unfold loop_body.
  set (st1 := {| frame_count := frame_count st + 1;
                 websocket := websocket st; srv := srv st |}).
  destruct loads as [frame_data|e].
  - destruct (py_get frame_data "image") as [image_data|e]; [|done].
    destruct (negb (truthy image_data)).
    + destruct (after_send_globals (websocket st1) no_image_response st1
                  eq_refl) as [-> ->]. done.
    + pose proof (try_frame_globals image_data st1) as (Hm & Ha & Hi).
      destruct (try_frame image_data st1) as [[[]|e] st']; cbn [snd] in *;
        [done|].
      destruct (after_send_globals (websocket st')
                  (processing_failed_response e (frame_count st')) st'
                  eq_refl) as [-> ->]. done.
  - destruct (exc_type e); try done.
    destruct (after_send_globals (websocket st1) invalid_json_response st1
                eq_refl) as [-> ->]. done.
Qed.

Lemma list_remove_fresh (x : nat) (l : list nat) :
  x ∉ l -> list_remove x (l ++ [x]) = Ok l.
Proof.
  induction l as [|y l IH]; intros Hx; simpl.
  - by rewrite Nat.eqb_refl.
  - apply not_elem_of_cons in Hx as [Hxy Hx].
    destruct (x =? y) eqn:E; [apply Nat.eqb_eq in E; done|].
    by rewrite IH.
Qed.

Lemma list_remove_absent (x : nat) (l : list nat) :
  x ∉ l ->
  list_remove x l = Raise (Exc ValueError "list.remove(x): x not in list").
Proof.
  induction l as [|y l IH]; intros Hx; simpl; [done|].
  apply not_elem_of_cons in Hx as [Hxy Hx].
  destruct (x =? y) eqn:E; [apply Nat.eqb_eq in E; done|].
  by rewrite IH.
Qed.

(** The receive loop, started with the socket registered last, ends open
    with the list untouched or closed with the socket taken off it. *)
Lemma receive_loop_connections (inbox : list received) (st : session)
    (others : list nat) :
  ws_id (websocket st) ∉ others ->
  active_connections (srv st) = others ++ [ws_id (websocket st)] ->
  match fst (receive_loop inbox st) with
  | Open =>
      active_connections (srv (snd (receive_loop inbox st)))
      = others ++ [ws_id (websocket st)]
  | Closed _ =>
      active_connections (srv (snd (receive_loop inbox st))) = others
  | HandshakeFailed _ => False
  end.
Proof.
  revert st. induction inbox as [|r inbox IH]; intros st Hfresh Hreg.
  - done.
  - assert (Hclose : forall e st',
              ws_id (websocket st') = ws_id (websocket st) ->
              active_connections (srv st') = active_connections (srv st) ->
              exists e' st'',
                on_exception e st' = (Closed e', st'') /\
                active_connections (srv st'') = others).
    { intros e st' Hid Hact. unfold on_exception, disconnect.
      rewrite Hact, Hreg, Hid, list_remove_fresh by done. by eexists _, _. }
    destruct r as [loads|e]; cbn [receive_loop].
    + pose proof (loop_body_globals loads st) as (_ & Hact & Hid).
      destruct (loop_body loads st) as [[|e] st']; cbn [snd] in *.
      * rewrite <- Hid. apply IH; [by rewrite Hid|by rewrite Hact, Hid].
      * destruct (Hclose e st' Hid Hact) as (e' & st'' & -> & Hl). done.
    + destruct (Hclose e st eq_refl eq_refl) as (e' & st'' & -> & Hl). done.
Qed.

End SessionInvariants.

(** X1: while a streaming session is open, [frame_count] is the number of
    text frames it has received, whatever was in them. *)
Theorem open_session_counts_every_frame `{Backend} `{Codec} (ws : WebSocket)
    (inbox : list received) (s : server) :
  fst (websocket_endpoint ws inbox s) = Open ->
  frame_count (snd (websocket_endpoint ws inbox s)) = length inbox.
Proof.
  unfold websocket_endpoint.
  destruct (connect ws s) as [[[]|e] s']; [|discriminate].
  intros Hopen. by rewrite receive_loop_open_frame_count.
Qed.

Lemma open_session_counts_every_frame_witness :
  fst (@websocket_endpoint TestDouble.backend TestDouble.codec
         TestDouble.socket
         [TestDouble.red_frame; TestDouble.garbled_frame;
          Message (Ok (PDict []))]
         TestDouble.app) = Open /\
  frame_count
    (snd (@websocket_endpoint TestDouble.backend TestDouble.codec
            TestDouble.socket
            [TestDouble.red_frame; TestDouble.garbled_frame;
             Message (Ok (PDict []))]
            TestDouble.app)) = 3.
Proof.
  split; [reflexivity|].
  apply (@open_session_counts_every_frame TestDouble.backend
           TestDouble.codec TestDouble.socket
           [TestDouble.red_frame; TestDouble.garbled_frame;
            Message (Ok (PDict []))]
           TestDouble.app).
  reflexivity.
Defined.

(** X2: on a transport that delivers, a session whose frames are text that
    is not JSON or JSON objects stays open however many of them fail, and
    has sent exactly one reply per frame. *)
Theorem guarded_frames_never_close_session `{Backend} `{Codec}
    (ws : WebSocket) (inbox : list received) (s : server) :
  accept_outcome ws = None ->
  (forall k, send_outcome ws k = None) ->
  Forall guarded_frame inbox ->
  fst (websocket_endpoint ws inbox s) = Open /\
  length (sent (websocket (snd (websocket_endpoint ws inbox s))))
  = length (sent ws) + length inbox.
Proof.
  intros Hacc Hsend Hg. unfold websocket_endpoint, connect. rewrite Hacc.
  by apply receive_loop_guarded_stays_open.
Qed.

Lemma guarded_frames_never_close_session_witness :
  accept_outcome TestDouble.socket = None /\
  (forall k, send_outcome TestDouble.socket k = None) /\
  Forall guarded_frame
    [TestDouble.garbled_frame; Message (Ok (PDict []));
     Message (Ok (PDict [("image", PStr "??")]))] /\
  fst (@websocket_endpoint TestDouble.backend TestDouble.codec
         TestDouble.socket
         [TestDouble.garbled_frame; Message (Ok (PDict []));
          Message (Ok (PDict [("image", PStr "??")]))]
         TestDouble.app) = Open /\
  length
    (sent (websocket
             (snd (@websocket_endpoint TestDouble.backend TestDouble.codec
                     TestDouble.socket
                     [TestDouble.garbled_frame; Message (Ok (PDict []));
                      Message (Ok (PDict [("image", PStr "??")]))]
                     TestDouble.app))))
  = length (sent TestDouble.socket) + 3.
Proof.
  assert (Hg : Forall guarded_frame
                 [TestDouble.garbled_frame; Message (Ok (PDict []));
                  Message (Ok (PDict [("image", PStr "??")]))]).
  { apply List.Forall_cons; [reflexivity|].
    apply List.Forall_cons; [exact I|].
    apply List.Forall_cons; [exact I|]. apply List.Forall_nil. }
  split; [reflexivity|]. split; [intros k; reflexivity|].
  split; [exact Hg|].
  exact (@guarded_frames_never_close_session TestDouble.backend
           TestDouble.codec TestDouble.socket
           [TestDouble.garbled_frame; Message (Ok (PDict []));
            Message (Ok (PDict [("image", PStr "??")]))]
           TestDouble.app eq_refl (fun k => eq_refl) Hg).
Defined.

(** X3: the session never leaks its registration.  With a socket that is
    not yet in the manager's list, whatever arrives, the endpoint either is
    still open with the socket registered last, or has ended with the list
    exactly as it was before the connection. *)
Theorem websocket_endpoint_registration `{Backend} `{Codec} (ws : WebSocket)
    (inbox : list received) (s : server) :
  accept_outcome ws = None ->
  ws_id ws ∉ active_connections s ->
  match fst (websocket_endpoint ws inbox s) with
  | Open =>
      active_connections (srv (snd (websocket_endpoint ws inbox s)))
      = active_connections s ++ [ws_id ws]
  | Closed _ =>
      active_connections (srv (snd (websocket_endpoint ws inbox s)))
      = active_connections s
  | HandshakeFailed _ => False
  end.
Proof.
  intros Hacc Hfresh. unfold websocket_endpoint, connect. rewrite Hacc.
  set (st := {| frame_count := 0; websocket := ws;
                srv := {| model_service := model_service s;
                          active_connections :=
                            active_connections s ++ [ws_id ws];
                          wall := wall s |} |}).
  exact (receive_loop_connections inbox st (active_connections s)
           Hfresh eq_refl).
Qed.

Lemma websocket_endpoint_registration_witness :
  accept_outcome TestDouble.socket = None /\
  (ws_id TestDouble.socket ∉ active_connections TestDouble.app) /\
  match
    fst (@websocket_endpoint TestDouble.backend TestDouble.codec
           TestDouble.socket
           [TestDouble.red_frame;
            ReceiveRaises (Exc WebSocketDisconnect "1001")]
           TestDouble.app)
  with
  | Open =>
      active_connections
        (srv (snd (@websocket_endpoint TestDouble.backend TestDouble.codec
                     TestDouble.socket
                     [TestDouble.red_frame;
                      ReceiveRaises (Exc WebSocketDisconnect "1001")]
                     TestDouble.app)))
      = active_connections TestDouble.app ++ [ws_id TestDouble.socket]
  | Closed _ =>
      active_connections
        (srv (snd (@websocket_endpoint TestDouble.backend TestDouble.codec
                     TestDouble.socket
                     [TestDouble.red_frame;
                      ReceiveRaises (Exc WebSocketDisconnect "1001")]
                     TestDouble.app)))
      = active_connections TestDouble.app
  | HandshakeFailed _ => False
  end.
Proof.
  assert (Hfresh : ws_id TestDouble.socket
                   ∉ active_connections TestDouble.app).
  { apply not_elem_of_nil. }
  split; [reflexivity|]. split; [exact Hfresh|].
  apply (@websocket_endpoint_registration TestDouble.backend
           TestDouble.codec TestDouble.socket _ TestDouble.app eq_refl
           Hfresh).
Defined.

Section FrameHandling.
Context `{Backend} `{Codec}.

Lemma try_frame_without_service (image_data : pyval) (st : session) :
  model_service (srv st) = None ->
  exists e, try_frame image_data st = (Raise e, st).
Proof.
  intros Hnone. unfold try_frame.
  destruct (strip_data_url image_data) as [b64|e]; [|eauto].
  destruct (decode_base64_to_image b64) as [image_np|e]; [|eauto].
  rewrite Hnone. eauto.
Qed.

(** What [loop_body] does with a frame that carries image data, on a
    transport that delivers. *)
Lemma loop_body_image_frame (frame_data image_data : pyval) (st : session) :
  (forall k, send_outcome (websocket st) k = None) ->
  py_get frame_data "image" = Ok image_data ->
  truthy image_data = true ->
  exists reply st',
    loop_body (Ok frame_data) st = (NextIteration, st') /\
    sent (websocket st') = sent (websocket st) ++ [reply] /\
    (forall k, send_outcome (websocket st') k = None) /\
    echoes reply (frame_count st + 1) /\
    (reply !! "success" = Some (PBool true) \/
     exists e, fst (try_frame image_data
                      {| frame_count := frame_count st + 1;
                         websocket := websocket st; srv := srv st |})
               = Raise e /\
               reply = processing_failed_response e (frame_count st + 1)).
Proof.
  intros Hsend Hget Htrue. unfold loop_body. rewrite Hget, Htrue.
  cbn [negb].
  set (st1 := {| frame_count := frame_count st + 1;
                 websocket := websocket st; srv := srv st |}).
  pose proof (try_frame_outcome image_data st1 Hsend) as [Hout Hres].
  pose proof (try_frame_frame_count image_data st1) as Hcount.
  destruct (try_frame image_data st1) as [[[]|e] st']; cbn [fst snd] in *.
  - destruct Hres as (reply & Hsent & Hok & Hecho).
    eexists _, _. split; [reflexivity|]. split; [done|].
    split; [by intros k; rewrite Hout|]. split; [done|]. by left.
  - assert (Hsend' : send_outcome (websocket st') (sends (websocket st'))
                     = None) by (by rewrite Hout).
    destruct (send_text_delivers (websocket st')
                (processing_failed_response e (frame_count st')) Hsend')
      as (ws' & -> & Hsent & _ & Hout').
    eexists _, _. split; [reflexivity|]. cbn [with_websocket websocket].
    split; [by rewrite Hsent, Hres|].
    split; [by intros k; rewrite Hout', Hout|].
    rewrite Hcount. cbn [st1 frame_count].
    split; [apply processing_failed_response_echoes|].
    right. by exists e.
Qed.

End FrameHandling.

(** X4: a frame that carries image data is answered, on a transport that
    delivers, by exactly one reply, and that reply echoes the frame's number
    whether the frame was processed or failed on the way. *)
Theorem image_frame_reply_echoes_frame_number `{Backend} `{Codec}
    (frame_data image_data : pyval) (st : session) :
  (forall k, send_outcome (websocket st) k = None) ->
  py_get frame_data "image" = Ok image_data ->
  truthy image_data = true ->
  exists reply st',
    loop_body (Ok frame_data) st = (NextIteration, st') /\
    sent (websocket st') = sent (websocket st) ++ [reply] /\
    frame_count st' = frame_count st + 1 /\
    echoes reply (frame_count st + 1).
Proof.
  intros Hsend Hget Htrue.
  destruct (loop_body_image_frame frame_data image_data st Hsend Hget Htrue)
    as (reply & st' & Hbody & Hsent & _ & Hecho & _).
  exists reply, st'. split; [done|]. split; [done|]. split; [|done].
  pose proof (loop_body_frame_count (Ok frame_data) st) as Hcount.
  by rewrite Hbody in Hcount.
Qed.

Lemma image_frame_reply_echoes_frame_number_witness :
  (forall k,
     send_outcome
       (websocket {| frame_count := 4; websocket := TestDouble.socket;
                     srv := TestDouble.app |}) k = None) /\
  py_get (PDict [("image", PStr "??")]) "image" = Ok (PStr "??") /\
  truthy (PStr "??") = true /\
  exists reply st',
    @loop_body TestDouble.backend TestDouble.codec
      (Ok (PDict [("image", PStr "??")]))
      {| frame_count := 4; websocket := TestDouble.socket;
         srv := TestDouble.app |} = (NextIteration, st') /\
    sent (websocket st') = sent TestDouble.socket ++ [reply] /\
    frame_count st' = 4 + 1 /\
    echoes reply (4 + 1).
Proof.
  split; [intros k; reflexivity|]. split; [reflexivity|].
  split; [reflexivity|].
  exact (@image_frame_reply_echoes_frame_number TestDouble.backend
           TestDouble.codec (PDict [("image", PStr "??")]) (PStr "??")
           {| frame_count := 4; websocket := TestDouble.socket;
              srv := TestDouble.app |}
           (fun k => eq_refl) eq_refl eq_refl).
Defined.

(** ** Data URLs *)

Lemma split_comma_nonempty (s : string) : split_comma s <> [].
Proof. destruct s as [|c s]; simpl; [done|]. by repeat case_match. Qed.

Lemma split_comma_free (s : string) :
  comma_free s = true -> split_comma s = [s].
Proof.
  induction s as [|c s IH]; simpl; [done|].
  intros [Hc Hs]%andb_true_iff. apply negb_true_iff in Hc.
  by rewrite Hc, IH.
Qed.

Lemma split_comma_at_first (a b : string) :
  comma_free a = true ->
  split_comma (a +:+ String "," b) = a :: split_comma b.
Proof.
  induction a as [|c a IH]; simpl; [done|].
  intros [Hc Ha]%andb_true_iff. apply negb_true_iff in Hc.
  by rewrite Hc, IH.
Qed.

Lemma prefix_append (p a b : string) :
  String.prefix p a = true -> String.prefix p (a +:+ b) = true.
Proof.
  revert a. induction p as [|c p IH]; intros a.
  - intros _. by destruct (a +:+ b).
  - destruct a as [|d a]; simpl; [done|].
    destruct (ascii_dec c d); [apply IH|done].
Qed.

(** X5: a data URL is cut at its first comma.  For a header that starts
    with [data:image] and a payload, neither containing a comma,
    [header,payload] is reduced to the payload. *)
Theorem strip_data_url_payload (header payload : string) :
  String.prefix "data:image" header = true ->
  comma_free header = true ->
  comma_free payload = true ->
  strip_data_url (PStr (header +:+ String "," payload)) = Ok payload.
Proof.
  intros Hp Hh Hpl. unfold strip_data_url.
  rewrite prefix_append, split_comma_at_first, split_comma_free by done.
  reflexivity.
Qed.

Lemma strip_data_url_payload_witness :
  String.prefix "data:image" "data:image/png;base64" = true /\
  comma_free "data:image/png;base64" = true /\
  comma_free "iVBORw0KGgo=" = true /\
  strip_data_url (PStr ("data:image/png;base64" +:+ String "," "iVBORw0KGgo="))
  = Ok "iVBORw0KGgo=".
Proof.
  split; [reflexivity|]. split; [reflexivity|]. split; [reflexivity|].
  exact (strip_data_url_payload "data:image/png;base64" "iVBORw0KGgo="
           eq_refl eq_refl eq_refl).
Defined.

(** X6: text with the [data:image] prefix but without any comma cannot be
    cut: the list index fails, inside the inner [try]. *)
Theorem strip_data_url_without_comma (s : string) :
  String.prefix "data:image" s = true ->
  comma_free s = true ->
  strip_data_url (PStr s) = Raise (Exc IndexError "list index out of range").
Proof.
  intros Hp Hs. unfold strip_data_url.
  by rewrite Hp, split_comma_free.
Qed.

Lemma strip_data_url_without_comma_witness :
  String.prefix "data:image" "data:image/png;base64" = true /\
  comma_free "data:image/png;base64" = true /\
  strip_data_url (PStr "data:image/png;base64")
  = Raise (Exc IndexError "list index out of range").
Proof.
  split; [reflexivity|]. split; [reflexivity|].
  exact (strip_data_url_without_comma "data:image/png;base64"
           eq_refl eq_refl).
Defined.

(** ** Frames that are not processed *)

Lemma py_get_missing (members : list (string * pyval)) (key : string) :
  Forall (fun member => fst member <> key) members ->
  py_get (PDict members) key = Ok PNone.
Proof.
  intros Hm. cbn [py_get]. f_equal.
  assert (Hnone : (list_to_map (reverse members) : gmap string pyval) !! key
                  = None).
  { apply not_elem_of_list_to_map_1. intros Hin.
    apply list_elem_of_fmap in Hin as ([k v] & -> & Hin).
    rewrite elem_of_reverse in Hin.
    rewrite Forall_forall in Hm. by apply (Hm _ Hin). }
  by rewrite Hnone.
Qed.

(** X7: a JSON object without an [image] member is answered with "No image
    data provided"; the pipeline is not run and the clock is not read, the
    frame is still counted, and the loop goes on. *)
Theorem frame_without_image_member `{Backend} `{Codec}
    (members : list (string * pyval)) (st : session) :
  Forall (fun member => fst member <> "image") members ->
  send_outcome (websocket st) (sends (websocket st)) = None ->
  exists st',
    loop_body (Ok (PDict members)) st = (NextIteration, st') /\
    sent (websocket st') = sent (websocket st) ++ [no_image_response] /\
    srv st' = srv st /\
    frame_count st' = frame_count st + 1.
Proof.
  intros Hm Hsend. unfold loop_body. rewrite py_get_missing by done.
  cbn [truthy negb websocket].
  destruct (send_text_delivers (websocket st) no_image_response Hsend)
    as (ws' & -> & Hsent & _).
  eexists. split; [reflexivity|]. done.
Qed.

Lemma frame_without_image_member_witness :
  Forall (fun member : string * pyval => fst member <> "image")
    [("frame", PInt 7)] /\
  send_outcome
    (websocket {| frame_count := 2; websocket := TestDouble.socket;
                  srv := TestDouble.app |})
    (sends (websocket {| frame_count := 2; websocket := TestDouble.socket;
                         srv := TestDouble.app |})) = None /\
  exists st',
    @loop_body TestDouble.backend TestDouble.codec
      (Ok (PDict [("frame", PInt 7)]))
      {| frame_count := 2; websocket := TestDouble.socket;
         srv := TestDouble.app |} = (NextIteration, st') /\
    sent (websocket st') = sent TestDouble.socket ++ [no_image_response] /\
    srv st' = TestDouble.app /\
    frame_count st' = 2 + 1.
Proof.
  assert (Hm : Forall (fun member : string * pyval => fst member <> "image")
                 [("frame", PInt 7)]).
  { apply List.Forall_cons; [discriminate|]. apply List.Forall_nil. }
  split; [exact Hm|]. split; [reflexivity|].
  exact (@frame_without_image_member TestDouble.backend TestDouble.codec
           [("frame", PInt 7)]
           {| frame_count := 2; websocket := TestDouble.socket;
              srv := TestDouble.app |} Hm eq_refl).
Defined.

(** ** Without a model service *)

Section WithoutService.
Context `{Backend} `{Codec}.

Lemma loop_body_without_service (loads : result pyval) (st : session) :
  model_service (srv st) = None ->
  (forall k, send_outcome (websocket st) k = None) ->
  guarded_frame (Message loads) ->
  exists reply st',
    loop_body loads st = (NextIteration, st') /\
    sent (websocket st') = sent (websocket st) ++ [reply] /\
    (forall k, send_outcome (websocket st') k = None) /\
    model_service (srv st') = None /\
    error_tagged reply.
Proof.
  intros Hnone Hsend Hg. unfold loop_body.
  set (st1 := {| frame_count := frame_count st + 1;
                 websocket := websocket st; srv := srv st |}).
  destruct loads as [frame_data|e]; cbn [guarded_frame] in Hg.
  - destruct frame_data as [| | | | | |members]; try done.
    cbn [py_get].
    destruct (negb (truthy _)).
    + destruct (send_text_delivers (websocket st1) no_image_response
                  (Hsend _)) as (ws' & -> & Hsent & _ & Hout).
      eexists _, _. split; [reflexivity|]. cbn [with_websocket websocket srv].
      split; [done|]. split; [by intros k; rewrite Hout|]. split; [done|].
      by unfold error_tagged, no_image_response; rewrite lookup_insert_eq.
    + match goal with |- context [try_frame ?v st1] =>
        destruct (try_frame_without_service v st1 Hnone) as [e ->]
      end.
      destruct (send_text_delivers (websocket st1)
                  (processing_failed_response e (frame_count st1))
                  (Hsend _)) as (ws' & -> & Hsent & _ & Hout).
      eexists _, _. split; [reflexivity|]. cbn [with_websocket websocket srv].
      split; [done|]. split; [by intros k; rewrite Hout|]. split; [done|].
      apply processing_failed_response_echoes.
  - rewrite Hg.
    destruct (send_text_delivers (websocket st1) invalid_json_response
                (Hsend _)) as (ws' & -> & Hsent & _ & Hout).
    eexists _, _. split; [reflexivity|]. cbn [with_websocket websocket srv].
    split; [done|]. split; [by intros k; rewrite Hout|]. split; [done|].
    by unfold error_tagged, invalid_json_response; rewrite lookup_insert_eq.
Qed.

Lemma receive_loop_without_service (inbox : list received) (st : session) :
  model_service (srv st) = None ->
  (forall k, send_outcome (websocket st) k = None) ->
  Forall guarded_frame inbox ->
  exists replies,
    fst (receive_loop inbox st) = Open /\
    sent (websocket (snd (receive_loop inbox st)))
    = sent (websocket st) ++ replies /\
    length replies = length inbox /\
    Forall error_tagged replies.
Proof.
  revert st. induction inbox as [|r inbox IH]; intros st Hnone Hsend Hg.
  - exists []. by rewrite app_nil_r.
  - inversion Hg as [|? ? Hr Hrest]; subst.
    destruct r as [loads|e]; [|done].
    destruct (loop_body_without_service loads st Hnone Hsend Hr)
      as (reply & st' & Hbody & Hsent & Hsend' & Hnone' & Htag).
    cbn [receive_loop]. rewrite Hbody.
    destruct (IH st' Hnone' Hsend' Hrest) as (replies & Hopen & Hs & Hl & Ht).
    exists (reply :: replies). split; [done|].
    split; [by rewrite Hs, Hsent, <- app_assoc|].
    split; [by simpl; rewrite Hl|]. by constructor.
Qed.

End WithoutService.

(** X8: while no model service is available, a streaming session degrades
    frame by frame.  On a transport that delivers, every frame that is not
    JSON or is a JSON object gets one reply, every reply is error-tagged, and
    the session stays open. *)
Theorem streaming_without_model_service `{Backend} `{Codec} (ws : WebSocket)
    (inbox : list received) (s : server) :
  model_service s = None ->
  accept_outcome ws = None ->
  (forall k, send_outcome ws k = None) ->
  Forall guarded_frame inbox ->
  exists replies,
    fst (websocket_endpoint ws inbox s) = Open /\
    sent (websocket (snd (websocket_endpoint ws inbox s)))
    = sent ws ++ replies /\
    length replies = length inbox /\
    Forall error_tagged replies.
Proof.
  intros Hnone Hacc Hsend Hg. unfold websocket_endpoint, connect.
  rewrite Hacc. by apply receive_loop_without_service.
Qed.

Lemma streaming_without_model_service_witness :
  model_service
    {| model_service := None; active_connections := [];
       wall := TestDouble.wall_clock |} = None /\
  accept_outcome TestDouble.socket = None /\
  (forall k, send_outcome TestDouble.socket k = None) /\
  Forall guarded_frame [TestDouble.red_frame; TestDouble.garbled_frame] /\
  exists replies,
    fst (@websocket_endpoint TestDouble.backend TestDouble.codec
           TestDouble.socket
           [TestDouble.red_frame; TestDouble.garbled_frame]
           {| model_service := None; active_connections := [];
              wall := TestDouble.wall_clock |}) = Open /\
    sent (websocket
            (snd (@websocket_endpoint TestDouble.backend TestDouble.codec
                    TestDouble.socket
                    [TestDouble.red_frame; TestDouble.garbled_frame]
                    {| model_service := None; active_connections := [];
                       wall := TestDouble.wall_clock |})))
    = sent TestDouble.socket ++ replies /\
    length replies = 2 /\
    Forall error_tagged replies.
Proof.
  assert (Hg : Forall guarded_frame
                 [TestDouble.red_frame; TestDouble.garbled_frame]).
  { apply List.Forall_cons; [exact I|].
    apply List.Forall_cons; [reflexivity|]. apply List.Forall_nil. }
  split; [reflexivity|]. split; [reflexivity|].
  split; [intros k; reflexivity|]. split; [exact Hg|].
  exact (@streaming_without_model_service TestDouble.backend
           TestDouble.codec TestDouble.socket
           [TestDouble.red_frame; TestDouble.garbled_frame]
           {| model_service := None; active_connections := [];
              wall := TestDouble.wall_clock |}
           eq_refl eq_refl (fun k => eq_refl) Hg).
Defined.

(** ** The upload endpoints *)

Lemma error_content_fields (msg : string) :
  error_content msg !! "success" = Some (PBool false) /\
  error_content msg !! "error" = Some (PStr msg).
Proof.
  unfold error_content. split.
  - by rewrite lookup_insert_eq.
  - by rewrite lookup_insert_ne, lookup_insert_eq by done.
Qed.

(** X9: every answer of [upload_image] is one of two kinds: status 200 with
    [success: true] and exactly the three encoded images beside it, or status
    400 or 500 with [success: false] and an error text.  The model service
    and the connection list are never changed. *)
Theorem upload_image_answers `{Backend} `{Codec} (file : UploadFile)
    (s : server) :
  let reply := fst (upload_image file s) in
  let s' := snd (upload_image file s) in
  (status_code reply = 200 /\
   content reply !! "success" = Some (PBool true) /\
   dom (content reply)
   = ({["success"; "original_image"; "segmentation_mask"; "overlay"]}
      : gset string)
   \/
   (status_code reply = 400 \/ status_code reply = 500) /\
   exists msg, content reply = error_content msg) /\
  model_service s' = model_service s /\
  active_connections s' = active_connections s.
Proof.
  cbn zeta. unfold upload_image.
  destruct (negb (String.prefix "image/" (content_type file)));
    [by split; [right; eauto|]|].
  destruct (model_service s) as [ms|] eqn:Hms;
    [|by split; [right; eauto|rewrite ?Hms]].
  destruct (Image_open (contents file)) as [image|e];
    cbn [mbind result_bind]; [|by split; [right; eauto|rewrite ?Hms]].
  destruct (process_image ms (np_array image) (wall s)) as [[res|e] clk];
    cbn [mbind result_bind fst snd];
    [|by split; [right; eauto|cbn; rewrite ?Hms]].
  destruct (encode_image_to_base64 (np_array image) "PNG") as [orig|e];
    cbn [mbind result_bind]; [|by split; [right; eauto|cbn; rewrite ?Hms]].
  destruct (getitem res "mask") as [mask|e];
    cbn [mbind result_bind]; [|by split; [right; eauto|cbn; rewrite ?Hms]].
  destruct (encode_value mask) as [m64|e];
    cbn [mbind result_bind]; [|by split; [right; eauto|cbn; rewrite ?Hms]].
  destruct (getitem res "overlay") as [ov|e];
    cbn [mbind result_bind]; [|by split; [right; eauto|cbn; rewrite ?Hms]].
  destruct (encode_value ov) as [o64|e];
    cbn [mbind result_bind]; [|by split; [right; eauto|cbn; rewrite ?Hms]].
  split; [|by cbn; rewrite ?Hms]. left. cbn [fst status_code content].
  split; [done|]. split; [by rewrite lookup_insert_eq|].
  rewrite !dom_insert_L, dom_empty_L. set_solver.
Qed.


(** X11: a grayscale picture cannot be uploaded.  With a constructed model
    service, bytes that open as a single-band image are answered with status
    500: the pipeline fails in preprocessing, whatever the picture shows. *)
Theorem upload_image_grayscale_fails `{Backend} `{Codec} (env : torch_env)
    (checkpoint_path : option string) (ms : ModelService)
    (file : UploadFile) (s : server) (image : pil_image) :
  ModelService_init env checkpoint_path = Ok ms ->
  model_service s = Some ms ->
  String.prefix "image/" (content_type file) = true ->
  Image_open (contents file) = Ok image ->
  mode image = L ->
  fst (upload_image file s)
  = {| status_code := 500;
       content :=
         error_content ("Model processing failed: " +:+ broadcast_mismatch) |}.
Proof.
  intros Hinit Hms Hct Hopen Hmode.
  destruct (ModelService_init_fields _ _ _ Hinit) as (Ht & _).
  unfold upload_image. rewrite Hct, Hms, Hopen. cbn [negb mbind result_bind].
  unfold process_image. cbn [time_time].
  rewrite (preprocess_image_grayscale ms (np_array image) (height image)
             (width image) Ht) by (by unfold np_array; rewrite Hmode).
  reflexivity.
Qed.

Lemma upload_image_grayscale_fails_witness :
  @ModelService_init TestDouble.backend TestDouble.env None
    = Ok TestDouble.service /\
  model_service TestDouble.app = Some TestDouble.service /\
  String.prefix "image/"
    (content_type {| filename := "scan.png"; content_type := "image/png";
                     contents := TestDouble.gray_png |}) = true /\
  @Image_open TestDouble.codec
    (contents {| filename := "scan.png"; content_type := "image/png";
                 contents := TestDouble.gray_png |})
    = Ok (PILImage L 2 1 [10; 240]%Z) /\
  mode (PILImage L 2 1 [10; 240]%Z) = L /\
  fst (@upload_image TestDouble.backend TestDouble.codec
         {| filename := "scan.png"; content_type := "image/png";
            contents := TestDouble.gray_png |} TestDouble.app)
  = {| status_code := 500;
       content :=
         error_content ("Model processing failed: " +:+ broadcast_mismatch) |}.
Proof.
  split; [reflexivity|]. split; [reflexivity|]. split; [reflexivity|].
  split; [reflexivity|]. split; [reflexivity|].
  exact (@upload_image_grayscale_fails TestDouble.backend TestDouble.codec
           TestDouble.env None TestDouble.service
           {| filename := "scan.png"; content_type := "image/png";
              contents := TestDouble.gray_png |}
           TestDouble.app (PILImage L 2 1 [10; 240]%Z)
           eq_refl eq_refl eq_refl eq_refl eq_refl).
Defined.

(** X12: [upload_video] never answers 400.  It returns the placeholder body
    exactly when the content type starts with [video/] and a model service
    exists; in every other case, a wrong content type included, the request
    ends as an [HTTPException] of status 500. *)
Theorem upload_video_outcomes `{Framework} (file : UploadFile) (s : server) :
  match upload_video file s with
  | Returns body =>
      String.prefix "video/" (content_type file) = true /\
      is_Some (model_service s) /\
      body = <["success" := PBool true]>
             (<["processed_frames" := PInt 0]>
              (<["processing_time" := PInt 0]>
               (<["video_url" := PNone]> ∅)))
  | RaisesHTTPException code detail =>
      code = 500 /\
      (String.prefix "video/" (content_type file) = false /\
       detail = str_HTTPException 400 "File must be a video"
       \/
       String.prefix "video/" (content_type file) = true /\
       model_service s = None)
  end.
Proof.
  unfold upload_video.
  destruct (String.prefix "video/" (content_type file)); cbn [negb].
  - destruct (model_service s) as [ms|]; [|by split; [|right]].
    unfold process_video.
    rewrite lookup_insert_eq.
    rewrite (lookup_insert_ne _ "frame_count" "total_time") by done.
    rewrite lookup_insert_eq.
    do 2 rewrite (lookup_insert_ne _ _ "output_path") by done.
    rewrite lookup_insert_eq. by split; [|split; [eexists|]].
  - by split; [|left].
Qed.

(** What [encode_image_to_base64] stores for a three-channel array: the
    picture with the first and third sample of every pixel exchanged. *)
Lemma encode_three_channel `{Backend} `{Codec} (h w : nat) (d : list Z) :
  0 < h -> 0 < w ->
  lossless_on (PILImage RGB w h (swap_rb d)) ->
  exists s,
    encode_image_to_base64 (NDArray [h; w; 3] d) "PNG" = Ok s /\
    (buffer ← b64decode s; Image_open buffer)
    = Ok (PILImage RGB w h (swap_rb d)).
Proof.
  intros Hh Hw (buffer & Hsave & Hb64 & Hopen).
  unfold encode_image_to_base64. rewrite log_and_reraise_id.
  cbn [shape length Nat.eqb]. unfold cvtColor. cbn [shape data].
  rewrite numel_eqb_nonzero by (repeat constructor; lia).
  cbn [Nat.eqb mbind result_bind].
  unfold Image_fromarray. cbn [shape data Nat.eqb mbind result_bind].
  rewrite Hsave. cbn [mbind result_bind].
  eexists. split; [reflexivity|]. by rewrite Hb64.
Qed.

(** X13: the [original_image] that a successful [upload_image] sends back is
    not the uploaded picture: for an RGB upload, and a codec that is lossless
    on it, the echoed picture has red and blue exchanged in every pixel. *)
Theorem upload_image_echo_swaps_red_and_blue `{Backend} `{Codec}
    (file : UploadFile) (s : server) (image : pil_image) :
  Image_open (contents file) = Ok image ->
  mode image = RGB ->
  0 < width image -> 0 < height image ->
  lossless_on
    (PILImage RGB (width image) (height image) (swap_rb (pixels image))) ->
  status_code (fst (upload_image file s)) = 200 ->
  exists original,
    content (fst (upload_image file s)) !! "original_image"
      = Some (PStr original) /\
    (buffer ← b64decode original; Image_open buffer)
    = Ok (PILImage RGB (width image) (height image)
            (swap_rb (pixels image))).
Proof.
  intros Hopen Hmode Hw Hh Hcodec.
  destruct (encode_three_channel (height image) (width image) (pixels image)
              Hh Hw Hcodec) as (orig & Henc & Hdec).
  unfold upload_image.
  destruct (negb (String.prefix "image/" (content_type file)));
    [discriminate|].
  destruct (model_service s) as [ms|]; [|discriminate].
  rewrite Hopen. cbn [mbind result_bind].
  unfold np_array. rewrite Hmode. cbn [bands].
  destruct (process_image ms _ (wall s)) as [[res|e] clk];
    cbn [mbind result_bind]; [|discriminate].
  rewrite Henc. cbn [mbind result_bind].
  destruct (getitem res "mask") as [mask|e];
    cbn [mbind result_bind]; [|discriminate].
  destruct (encode_value mask) as [m64|e];
    cbn [mbind result_bind]; [|discriminate].
  destruct (getitem res "overlay") as [ov|e];
    cbn [mbind result_bind]; [|discriminate].
  destruct (encode_value ov) as [o64|e];
    cbn [mbind result_bind]; [|discriminate].
  intros _. exists orig. cbn [fst content]. split; [|done].
  by rewrite lookup_insert_ne, lookup_insert_eq by done.
Qed.

Lemma upload_image_echo_swaps_red_and_blue_witness :
  @Image_open TestDouble.codec
    (contents {| filename := "red.png"; content_type := "image/png";
                 contents := TestDouble.red_pixel_png |})
    = Ok (PILImage RGB 1 1 [200; 0; 0]%Z) /\
  mode (PILImage RGB 1 1 [200; 0; 0]%Z) = RGB /\
  0 < width (PILImage RGB 1 1 [200; 0; 0]%Z) /\
  0 < height (PILImage RGB 1 1 [200; 0; 0]%Z) /\
  @lossless_on TestDouble.codec (PILImage RGB 1 1 [0; 0; 200]%Z) /\
  status_code
    (fst (@upload_image TestDouble.backend TestDouble.codec
            {| filename := "red.png"; content_type := "image/png";
               contents := TestDouble.red_pixel_png |} TestDouble.app))
    = 200 /\
  exists original,
    content
      (fst (@upload_image TestDouble.backend TestDouble.codec
              {| filename := "red.png"; content_type := "image/png";
                 contents := TestDouble.red_pixel_png |} TestDouble.app))
      !! "original_image" = Some (PStr original) /\
    (buffer ← @b64decode TestDouble.codec original;
     @Image_open TestDouble.codec buffer)
    = Ok (PILImage RGB 1 1 [0; 0; 200]%Z).
Proof.
  assert (Hcodec : @lossless_on TestDouble.codec
                     (PILImage RGB 1 1 [0; 0; 200]%Z)).
  { eexists. split; [reflexivity|]. split; reflexivity. }
  split; [reflexivity|]. split; [reflexivity|]. split; [cbn; lia|].
  split; [cbn; lia|]. split; [exact Hcodec|]. split; [reflexivity|].
  apply (@upload_image_echo_swaps_red_and_blue TestDouble.backend
           TestDouble.codec
           {| filename := "red.png"; content_type := "image/png";
              contents := TestDouble.red_pixel_png |}
           TestDouble.app (PILImage RGB 1 1 [200; 0; 0]%Z));
    [reflexivity | reflexivity | cbn; lia | cbn; lia | exact Hcodec
    | reflexivity].
Defined.

(** ** Construction of the service *)

(** X14: a missing checkpoint is not an error.  When no file exists at the
    checkpoint path and the network can be constructed, startup succeeds
    with that freshly constructed, untrained network as the model, and
    [/health] reports [model_loaded: true]. *)
Theorem startup_without_checkpoint `{Backend} (env : torch_env) (s : server)
    (net : Net) :
  UNET env = Ok net ->
  path_exists env (effective_checkpoint_path None) = false ->
  exists ms,
    startup_event env s
    = (Ok tt, {| model_service := Some ms;
                 active_connections := active_connections s;
                 wall := wall s |}) /\
    model ms = Some net /\
    transform ms = Some (Compose_transforms 560 690) /\
    health_check (snd (startup_event env s)) = health_body true.
Proof.
  intros Hnet Hpath. unfold startup_event, ModelService_init, _load_model.
  rewrite log_and_reraise_id, Hnet. cbn [mbind result_bind].
  unfold effective_checkpoint_path in Hpath. cbn [default] in Hpath.
  rewrite Hpath, andb_false_r. cbn [mbind result_bind].
  eexists. split; [reflexivity|]. done.
Qed.

Lemma startup_without_checkpoint_witness :
  UNET TestDouble.env = Ok TestDouble.net /\
  path_exists TestDouble.env (effective_checkpoint_path None) = false /\
  exists ms,
    @startup_event TestDouble.backend TestDouble.env
      {| model_service := None; active_connections := [];
         wall := TestDouble.wall_clock |}
    = (Ok tt, {| model_service := Some ms;
                 active_connections := [];
                 wall := TestDouble.wall_clock |}) /\
    model ms = Some TestDouble.net /\
    transform ms = Some (@Compose_transforms TestDouble.backend 560 690) /\
    health_check
      (snd (@startup_event TestDouble.backend TestDouble.env
              {| model_service := None; active_connections := [];
                 wall := TestDouble.wall_clock |}))
    = health_body true.
Proof.
  split; [reflexivity|]. split; [reflexivity|].
  exact (@startup_without_checkpoint TestDouble.backend TestDouble.env
           {| model_service := None; active_connections := [];
              wall := TestDouble.wall_clock |}
           TestDouble.net eq_refl eq_refl).
Defined.

(** X15: a checkpoint that exists but cannot be read is fatal.  Startup
    raises the error of [torch.load], no fallback to the untrained network
    takes place, the global stays as it was and [/health] goes on reporting
    [model_loaded: false]. *)
Theorem startup_with_unreadable_checkpoint `{Backend} (env : torch_env)
    (connections : list nat) (clk : clock) (net : Net) (e : exn) :
  UNET env = Ok net ->
  path_exists env (effective_checkpoint_path None) = true ->
  torch_load env (effective_checkpoint_path None) = Raise e ->
  let before :=
    {| model_service := None; active_connections := connections;
       wall := clk |} in
  startup_event env before = (Raise e, before) /\
  health_check (snd (startup_event env before)) = health_body false.
Proof.
  intros Hnet Hpath Hload before.
  assert (Hstart : startup_event env before = (Raise e, before)).
  { unfold startup_event, ModelService_init, _load_model.
    rewrite log_and_reraise_id, Hnet. cbn [mbind result_bind].
    unfold effective_checkpoint_path in Hpath, Hload.
    cbn [default] in Hpath, Hload.
    by rewrite Hpath, Hload. }
  by rewrite Hstart.
Qed.

Lemma startup_with_unreadable_checkpoint_witness :
  let env :=
    {| checkpoint := unit;
       cuda_is_available := false;
       UNET := Ok TestDouble.net;
       path_exists := fun _ => true;
       torch_load := fun _ => Raise (Exc RuntimeError "invalid load key");
       load_checkpoint := fun _ m => Ok m |} in
  let before :=
    {| model_service := None; active_connections := [];
       wall := TestDouble.wall_clock |} in
  UNET env = Ok TestDouble.net /\
  path_exists env (effective_checkpoint_path None) = true /\
  torch_load env (effective_checkpoint_path None)
    = Raise (Exc RuntimeError "invalid load key") /\
  @startup_event TestDouble.backend env before
    = (Raise (Exc RuntimeError "invalid load key"), before) /\
  health_check (snd (@startup_event TestDouble.backend env before))
    = health_body false.
Proof.
  intros env before.
  split; [reflexivity|]. split; [reflexivity|]. split; [reflexivity|].
  exact (@startup_with_unreadable_checkpoint TestDouble.backend env []
           TestDouble.wall_clock TestDouble.net
           (Exc RuntimeError "invalid load key") eq_refl eq_refl eq_refl).
Defined.

(** ** The stages on inputs outside their domain *)

Lemma numel_three_positive (h w : nat) :
  (numel [h; w; 3] =? 0) = false -> 0 < h /\ 0 < w.
Proof.
  intros Hn. apply Nat.eqb_neq in Hn. unfold numel, fold_right in Hn. lia.
Qed.

(** Preprocessing, with the transform of a constructed service, returns a
    tensor for non-empty three-channel arrays only. *)
Lemma preprocess_image_domain `{Backend} (self : ModelService)
    (image : ndarray Z) (t : ndarray Q) :
  transform self = Some (Compose_transforms 560 690) ->
  preprocess_image self image = Ok t ->
  exists h w, shape image = [h; w; 3] /\ 0 < h /\ 0 < w.
Proof.
  intros Ht. unfold preprocess_image. rewrite log_and_reraise_id, Ht.
  destruct image as [sh d]. cbn [shape].
  destruct sh as [|h [|w [|c [|x sh]]]]; cbn [length nth Nat.eqb andb];
    try (unfold Image_fromarray; cbn [shape mbind result_bind call];
         first [discriminate
               | by rewrite Compose_transforms_other]).
  destruct (c =? 3) eqn:Ec.
  - apply Nat.eqb_eq in Ec as ->. unfold cvtColor. cbn [shape].
    destruct (numel [h; w; 3] =? 0) eqn:En; [discriminate|].
    intros _. exists h, w. split; [done|]. by apply numel_three_positive.
  - cbn [mbind result_bind]. unfold Image_fromarray. cbn [shape]. rewrite Ec.
    destruct (c =? 2);
      [by cbn [mbind result_bind call]; rewrite Compose_transforms_other|].
    destruct (c =? 4);
      [by cbn [mbind result_bind call]; rewrite Compose_transforms_other|].
    discriminate.
Qed.

(** X16: the frame pipeline accepts three-channel images only.  Whenever
    [process_image] of a constructed service returns a result, the image was
    a non-empty array of shape (H, W, 3); grayscale, two- and four-channel
    arrays and arrays of other rank all make it raise. *)
Theorem process_image_needs_three_channels `{Backend} (env : torch_env)
    (checkpoint_path : option string) (self : ModelService)
    (image : ndarray Z) (clk : clock) (res : gmap string rval) :
  ModelService_init env checkpoint_path = Ok self ->
  fst (process_image self image clk) = Ok res ->
  exists h w, shape image = [h; w; 3] /\ 0 < h /\ 0 < w.
Proof.
  intros Hinit.
  destruct (ModelService_init_fields _ _ _ Hinit) as (Ht & _).
  unfold process_image. cbn [time_time].
  destruct (preprocess_image self image) as [t|e] eqn:Hpre;
    cbn [mbind result_bind fst]; [|discriminate].
  intros _. by eapply preprocess_image_domain.
Qed.

Lemma process_image_needs_three_channels_witness :
  @ModelService_init TestDouble.backend TestDouble.env None
    = Ok TestDouble.service /\
  fst (@process_image TestDouble.backend TestDouble.service
         (NDArray [1; 1; 3] [200; 0; 0]%Z) TestDouble.wall_clock)
  = Ok (<["mask" := RArray (NDArray [1; 1] [127%Z])]>
        (<["overlay" := RArray (NDArray [1; 1; 3] [100; 64; 0]%Z)]>
         (<["processing_time" := RFloat (1 - 0)%Q]> ∅))) /\
  exists h w,
    shape (NDArray [1; 1; 3] [200; 0; 0]%Z) = [h; w; 3] /\ 0 < h /\ 0 < w.
Proof.
  split; [reflexivity|]. split; [reflexivity|].
  exact (@process_image_needs_three_channels TestDouble.backend
           TestDouble.env None TestDouble.service
           (NDArray [1; 1; 3] [200; 0; 0]%Z) TestDouble.wall_clock _
           eq_refl eq_refl).
Defined.

(** X17: for a score map of shape (1, 1, 560, 690), [postprocess_output]
    returns a mask exactly when the original shape has at least two entries
    and the first two are positive; a shape that is too short or has a zero
    height or width makes it raise. *)
Theorem postprocess_output_domain `{Backend} (self : ModelService)
    (output : ndarray Q) (original_shape : list nat) :
  shape output = [1; 1; 560; 690] ->
  is_ok (postprocess_output self output original_shape) = true <->
  exists h w rest, original_shape = h :: w :: rest /\ 0 < h /\ 0 < w.
Proof.
  intros Hs. unfold postprocess_output.
  rewrite log_and_reraise_id. unfold squeeze. cbn [shape data]. rewrite Hs.
  cbn [List.filter Nat.eqb negb].
  destruct original_shape as [|h [|w rest]].
  - rewrite bool_decide_true by done. cbn. split; [done|].
    by intros (? & ? & ? & ? & _).
  - rewrite bool_decide_true by done. cbn. split; [done|].
    by intros (? & ? & ? & ? & _).
  - cbn [firstn]. case_bool_decide as Hne.
    + cbn [tuple_item lookup list_lookup mbind result_bind].
      unfold cv2_resize. cbn [shape].
      rewrite numel_eqb_nonzero by (repeat constructor; lia).
      destruct (Nat.eqb_spec w 0) as [Ew|Ew];
        destruct (Nat.eqb_spec h 0) as [Eh|Eh]; cbn [orb is_ok].
      * split; [done|]. intros (? & ? & ? & [= <- <- <-] & ? & ?). lia.
      * split; [done|]. intros (? & ? & ? & [= <- <- <-] & ? & ?). lia.
      * split; [done|]. intros (? & ? & ? & [= <- <- <-] & ? & ?). lia.
      * split; [|done]. intros _. exists h, w, rest. split; [done|]. lia.
    + injection Hne as -> ->. cbn [is_ok]. split; [|done].
      intros _. exists 560, 690, rest. split; [done|]. lia.
Qed.

Lemma postprocess_output_domain_witness :
  shape (tabulate [1; 1; 560; 690] (fun _ => 0%Q)) = [1; 1; 560; 690] /\
  (is_ok (@postprocess_output TestDouble.backend TestDouble.service
            (tabulate [1; 1; 560; 690] (fun _ => 0%Q)) [0; 5; 3]) = true <->
   exists h w rest, [0; 5; 3] = h :: w :: rest /\ 0 < h /\ 0 < w).
Proof.
  split; [reflexivity|].
  exact (@postprocess_output_domain TestDouble.backend TestDouble.service
           (tabulate [1; 1; 560; 690] (fun _ => 0%Q)) [0; 5; 3] eq_refl).
Defined.

(** ** The overlay, sample by sample *)

Lemma flat_map_ext_in {A B} (f g : A -> list B) (l : list A) :
  (forall a, In a l -> f a = g a) -> flat_map f l = flat_map g l.
Proof.
  induction l as [|a l IH]; intros Hfg; [done|].
  simpl. rewrite (Hfg a) by (by left).
  f_equal. apply IH. intros b Hb. apply Hfg. by right.
Qed.

Lemma flat_map_seq_shift {B} (f : nat -> list B) (start len : nat) :
  flat_map f (seq (S start) len) = flat_map (fun i => f (S i)) (seq start len).
Proof.
  revert start. induction len as [|len IH]; intros start; [done|].
  simpl. f_equal. apply IH.
Qed.

(** A list cut into [v] chunks and put together again. *)
Lemma chunks_concat {A} (v chunk : nat) (d : list A) :
  length d = v * chunk ->
  flat_map (fun i => take chunk (drop (i * chunk) d)) (seq 0 v) = d.
Proof.
  revert d. induction v as [|v IH]; intros d Hd.
  - by destruct d.
  - cbn [seq flat_map]. rewrite flat_map_seq_shift.
    rewrite (flat_map_ext_in _
               (fun i => take chunk (drop (i * chunk) (drop chunk d)))).
    + rewrite IH by (rewrite length_drop; lia).
      cbn [Nat.mul drop]. apply take_drop.
    + intros i _. by rewrite drop_drop.
Qed.

(** Broadcasting to the value's own shape changes nothing. *)
Lemma broadcast_data_same {A} (sh : list nat) (d : list A) :
  length d = numel sh -> broadcast_data sh sh d = d.
Proof.
  revert d. induction sh as [|v sh IH]; intros d Hd; [done|].
  cbn [broadcast_data]. fold (numel sh).
  rewrite (flat_map_ext_in _
             (fun i => take (numel sh) (drop (i * numel sh) d))).
  - apply chunks_concat. exact Hd.
  - intros i Hi. apply in_seq in Hi.
    assert (Hidx : (if v =? 1 then 0 else i) = i).
    { destruct (Nat.eqb_spec v 1); [lia|done]. }
    rewrite Hidx. apply IH.
    rewrite length_take, length_drop, Hd. cbn [numel fold_right].
    fold (numel sh). nia.
Qed.

Lemma repeat_replicate {A} (x : A) (n : nat) : repeat x n = replicate n x.
Proof. induction n as [|n IH]; [done|]. simpl. by rewrite IH. Qed.

(** The coloured mask of a three-channel image: every pixel is (0, m, 0). *)
Lemma green_channel_assignment (n : nat) (m : list Z) :
  length m = n ->
  flat_map
    (fun p =>
       let block := take (3 * 1) (drop (p * (3 * 1)) (repeat 0%Z (n * 3))) in
       take (1 * 1) block ++ take 1 (drop (p * 1) m) ++ drop (2 * 1) block)
    (seq 0 n)
  = flat_map (fun x => [0; x; 0]%Z) m.
Proof.
  intros Hn.
  rewrite (flat_map_ext_in _ (fun p => 0%Z :: take 1 (drop p m) ++ [0%Z])).
  - subst n. clear. induction m as [|x m IH]; [done|].
    cbn [length seq flat_map]. rewrite flat_map_seq_shift.
    cbn [drop take app]. by rewrite IH.
  - intros p Hp. apply in_seq in Hp. cbn zeta.
    rewrite repeat_replicate, drop_replicate, take_replicate.
    replace ((3 * 1) `min` (n * 3 - p * (3 * 1))) with 3 by lia.
    by rewrite !Nat.mul_1_r.
Qed.

Lemma zip_with_blend (alpha : Q) (image mask : list Z) :
  length image = 3 * length mask ->
  zip_with
    (fun x y =>
       saturate_uint8
         (cvRound (inject_Z x * (1 - alpha) + inject_Z y * alpha + 0)%Q))
    image (flat_map (fun x => [0; x; 0]%Z) mask)
  = blend_green alpha image mask.
Proof.
  revert image. induction mask as [|m mask IH]; intros image Hlen.
  - by destruct image.
  - destruct image as [|c0 [|c1 [|c2 image]]]; try (simpl in Hlen; lia).
    cbn [flat_map app zip_with blend_green]. unfold mix.
    rewrite IH by (simpl in Hlen; lia). done.
Qed.

(** X18: the overlay of a three-channel image and a mask of the same height
    and width, sample by sample.  In every pixel the first and third sample
    are the image's scaled by [1 - alpha], and the second is the image's
    blended with the mask; each is rounded (ties to even) and kept in
    [0, 255]. *)
Theorem overlay_mask_blends_green `{Backend} (self : ModelService)
    (image mask : ndarray Z) (alpha : Q) (h w : nat) :
  shape image = [h; w; 3] ->
  shape mask = [h; w] ->
  length (data image) = numel (shape image) ->
  length (data mask) = numel (shape mask) ->
  overlay_mask self image mask alpha
  = Ok (NDArray [h; w; 3] (blend_green alpha (data image) (data mask))).
Proof.
  intros Hi Hm Hli Hlm. unfold overlay_mask.
  rewrite log_and_reraise_id, Hm. cbn [length Nat.eqb mbind result_bind].
  unfold setitem_channel, zeros_like. cbn [shape data]. rewrite Hi, Hm.
  cbn [Nat.leb]. unfold align_shape.
  cbn [length Nat.leb Nat.sub repeat app].
  rewrite broadcastable_2d, !Nat.eqb_refl. cbn [orb andb mbind result_bind].
  rewrite broadcast_data_same by (by rewrite Hlm, Hm).
  rewrite Hm in Hlm. rewrite Hi in Hli.
  unfold numel, fold_right in Hlm, Hli.
  replace (numel [h; w; 3]) with (h * w * 3)
    by (unfold numel, fold_right; lia).
  change (numel []) with 1.
  rewrite green_channel_assignment by lia.
  unfold addWeighted. cbn [shape data].
  rewrite Hi, bool_decide_true by done.
  by rewrite zip_with_blend by lia.
Qed.

Lemma overlay_mask_blends_green_witness :
  shape (NDArray [1; 2; 3] [10; 20; 30; 40; 50; 60]%Z) = [1; 2; 3] /\
  shape (NDArray [1; 2] [255; 0]%Z) = [1; 2] /\
  length (data (NDArray [1; 2; 3] [10; 20; 30; 40; 50; 60]%Z))
    = numel (shape (NDArray [1; 2; 3] [10; 20; 30; 40; 50; 60]%Z)) /\
  length (data (NDArray [1; 2] [255; 0]%Z))
    = numel (shape (NDArray [1; 2] [255; 0]%Z)) /\
  @overlay_mask TestDouble.backend TestDouble.service
    (NDArray [1; 2; 3] [10; 20; 30; 40; 50; 60]%Z)
    (NDArray [1; 2] [255; 0]%Z) (1 # 2)
  = Ok (NDArray [1; 2; 3]
          (blend_green (1 # 2) [10; 20; 30; 40; 50; 60]%Z [255; 0]%Z)).
Proof.
  split; [reflexivity|]. split; [reflexivity|]. split; [reflexivity|].
  split; [reflexivity|].
  exact (@overlay_mask_blends_green TestDouble.backend TestDouble.service
           (NDArray [1; 2; 3] [10; 20; 30; 40; 50; 60]%Z)
           (NDArray [1; 2] [255; 0]%Z) (1 # 2) 1 2
           eq_refl eq_refl eq_refl eq_refl).
Defined.

(** X19: [overlay_mask] returns an array only for an image of at least
    three axes whose third has at least two entries, and what it returns has
    the image's shape; a two-dimensional (grayscale) image always makes it
    raise. *)
Theorem overlay_mask_result_shape `{Backend} (self : ModelService)
    (image mask overlay : ndarray Z) (alpha : Q) :
  overlay_mask self image mask alpha = Ok overlay ->
  shape overlay = shape image /\
  exists h w c rest, shape image = h :: w :: c :: rest /\ 2 <= c.
Proof.
  unfold overlay_mask. rewrite log_and_reraise_id.
  destruct (if length (shape mask) =? 3 then cvtColor mask COLOR_BGR2GRAY
            else Ok mask) as [mask'|e]; [|discriminate].
  cbn [mbind result_bind]. unfold setitem_channel, zeros_like.
  cbn [shape data].
  destruct (shape image) as [|h [|w [|c rest]]] eqn:Hs; try discriminate.
  destruct (c <=? 1) eqn:Hc; [discriminate|]. apply Nat.leb_gt in Hc.
  destruct (align_shape (shape mask') (h :: w :: rest)) as [vs|];
    [|discriminate].
  destruct (broadcastable vs (h :: w :: rest)); [|discriminate].
  cbn [mbind result_bind]. unfold addWeighted. cbn [shape].
  case_bool_decide; [|discriminate].
  intros [= <-]. cbn [shape]. split; [done|].
  exists h, w, c, rest. split; [done|lia].
Qed.

Lemma overlay_mask_result_shape_witness :
  @overlay_mask TestDouble.backend TestDouble.service
    (NDArray [1; 1; 3] [200; 0; 0]%Z) (NDArray [1; 1] [127]%Z) (1 # 2)
  = Ok (NDArray [1; 1; 3] [100; 64; 0]%Z) /\
  shape (NDArray [1; 1; 3] [100; 64; 0]%Z)
  = shape (NDArray [1; 1; 3] [200; 0; 0]%Z) /\
  exists h w c rest,
    shape (NDArray [1; 1; 3] [200; 0; 0]%Z) = h :: w :: c :: rest /\ 2 <= c.
Proof.
  split; [reflexivity|].
  exact (@overlay_mask_result_shape TestDouble.backend TestDouble.service
           (NDArray [1; 1; 3] [200; 0; 0]%Z) (NDArray [1; 1] [127]%Z)
           (NDArray [1; 1; 3] [100; 64; 0]%Z) (1 # 2) eq_refl).
Defined.

(** ** The codec adapter on other arrays *)

Lemma swap_rb_drop_alpha_back (d : list Z) :
  swap_rb (swap_rb_drop_alpha d) = drop_alpha d.
Proof.
  revert d. fix IH 1.
  intros [|c0 [|c1 [|c2 [|a rest]]]]; try reflexivity.
  simpl. by rewrite IH.
Qed.

(** X20: a four-channel image does not survive the codec.  With a codec
    that is lossless on what is stored, decoding what
    [encode_image_to_base64] produced gives a three-channel image: the first
    three samples of every pixel, the fourth dropped. *)
Theorem decode_encode_drops_alpha `{Backend} `{Codec} (image : ndarray Z)
    (h w : nat) :
  shape image = [h; w; 4] ->
  0 < h -> 0 < w ->
  lossless_on (PILImage RGB w h (swap_rb_drop_alpha (data image))) ->
  exists s,
    encode_image_to_base64 image "PNG" = Ok s /\
    decode_base64_to_image s = Ok (NDArray [h; w; 3] (drop_alpha (data image))).
Proof.
  intros Hs Hh Hw (buffer & Hsave & Hb64 & Hopen).
  unfold encode_image_to_base64, decode_base64_to_image.
  rewrite !log_and_reraise_id, Hs. cbn [length Nat.eqb].
  unfold cvtColor at 1. rewrite Hs.
  rewrite numel_eqb_nonzero by (repeat constructor; lia).
  cbn [Nat.eqb mbind result_bind].
  unfold Image_fromarray. cbn [shape data Nat.eqb mbind result_bind].
  rewrite Hsave. cbn [mbind result_bind].
  eexists. split; [reflexivity|].
  rewrite Hb64. cbn [mbind result_bind]. rewrite Hopen.
  cbn [mbind result_bind np_array mode height width pixels bands shape
       length nth Nat.eqb andb].
  unfold cvtColor. cbn [shape data].
  rewrite numel_eqb_nonzero by (repeat constructor; lia).
  cbn [Nat.eqb]. by rewrite swap_rb_drop_alpha_back.
Qed.

Lemma decode_encode_drops_alpha_witness :
  shape (NDArray [1; 2; 4] [1; 2; 3; 255; 4; 5; 6; 128]%Z) = [1; 2; 4] /\
  0 < 1 /\ 0 < 2 /\
  @lossless_on TestDouble.codec
    (PILImage RGB 2 1
       (swap_rb_drop_alpha
          (data (NDArray [1; 2; 4] [1; 2; 3; 255; 4; 5; 6; 128]%Z)))) /\
  exists s,
    @encode_image_to_base64 TestDouble.backend TestDouble.codec
      (NDArray [1; 2; 4] [1; 2; 3; 255; 4; 5; 6; 128]%Z) "PNG" = Ok s /\
    @decode_base64_to_image TestDouble.backend TestDouble.codec s
    = Ok (NDArray [1; 2; 3]
            (drop_alpha
               (data (NDArray [1; 2; 4] [1; 2; 3; 255; 4; 5; 6; 128]%Z)))).
Proof.
  assert (Hcodec : @lossless_on TestDouble.codec
            (PILImage RGB 2 1
               (swap_rb_drop_alpha
                  (data (NDArray [1; 2; 4]
                           [1; 2; 3; 255; 4; 5; 6; 128]%Z))))).
  { eexists. split; [reflexivity|]. split; reflexivity. }
  split; [reflexivity|]. split; [lia|]. split; [lia|].
  split; [exact Hcodec|].
  apply (@decode_encode_drops_alpha TestDouble.backend TestDouble.codec
           (NDArray [1; 2; 4] [1; 2; 3; 255; 4; 5; 6; 128]%Z) 1 2);
    [reflexivity | lia | lia | exact Hcodec].
Defined.



(** X22: what [overlay_mask] returns is a [uint8] array whatever the blend
    ratio: every sample lies in [0, 255], also for an [alpha] outside
    [0, 1]. *)
Theorem overlay_mask_samples_in_range `{Backend} (self : ModelService)
    (image mask overlay : ndarray Z) (alpha : Q) :
  overlay_mask self image mask alpha = Ok overlay ->
  uint8_samples (data overlay).
Proof.
  unfold overlay_mask. rewrite log_and_reraise_id.
  destruct (if length (shape mask) =? 3 then cvtColor mask COLOR_BGR2GRAY
            else Ok mask) as [mask'|e]; [|discriminate].
  cbn [mbind result_bind].
  destruct (setitem_channel (zeros_like image) 1 mask') as [coloured|e];
    [|discriminate].
  cbn [mbind result_bind]. unfold addWeighted.
  case_bool_decide; [|discriminate].
  intros [= <-]. cbn [data]. unfold uint8_samples.
  generalize (data coloured). induction (data image) as [|x d IH];
    intros [|y d']; cbn [zip_with]; try by constructor.
  constructor; [|apply IH]. unfold saturate_uint8. lia.
Qed.

Lemma overlay_mask_samples_in_range_witness :
  @overlay_mask TestDouble.backend TestDouble.service
    (NDArray [1; 1; 3] [200; 90; 250]%Z) (NDArray [1; 1] [255]%Z) (-3 # 1)
  = Ok (NDArray [1; 1; 3] [255; 0; 255]%Z) /\
  uint8_samples (data (NDArray [1; 1; 3] [255; 0; 255]%Z)).
Proof.
  split; [reflexivity|].
  exact (@overlay_mask_samples_in_range TestDouble.backend
           TestDouble.service (NDArray [1; 1; 3] [200; 90; 250]%Z)
           (NDArray [1; 1] [255]%Z) (NDArray [1; 1; 3] [255; 0; 255]%Z)
           (-3 # 1) eq_refl).
Defined.

(** ** The connection manager *)

(** X23: registering a socket that is not yet in the list and removing it
    again restores the server exactly; removing a socket that was never
    registered raises [ValueError] and changes nothing. *)
Theorem connect_then_disconnect (ws : WebSocket) (s : server) :
  accept_outcome ws = None ->
  ws_id ws ∉ active_connections s ->
  active_connections (snd (connect ws s)) = active_connections s ++ [ws_id ws]
  /\ disconnect ws (snd (connect ws s)) = (Ok tt, s)
  /\ disconnect ws s
     = (Raise (Exc ValueError "list.remove(x): x not in list"), s).
Proof.
  intros Hacc Hfresh. unfold connect, disconnect. rewrite Hacc.
  cbn [snd active_connections model_service wall].
  rewrite list_remove_fresh, list_remove_absent by done.
  by destruct s.
Qed.

Lemma connect_then_disconnect_witness :
  accept_outcome TestDouble.socket = None /\
  (ws_id TestDouble.socket
   ∉ active_connections
       {| model_service := None; active_connections := [4; 9];
          wall := TestDouble.wall_clock |}) /\
  active_connections
    (snd (connect TestDouble.socket
            {| model_service := None; active_connections := [4; 9];
               wall := TestDouble.wall_clock |}))
  = [4; 9] ++ [ws_id TestDouble.socket]
  /\ disconnect TestDouble.socket
       (snd (connect TestDouble.socket
               {| model_service := None; active_connections := [4; 9];
                  wall := TestDouble.wall_clock |}))
     = (Ok tt, {| model_service := None; active_connections := [4; 9];
                  wall := TestDouble.wall_clock |})
  /\ disconnect TestDouble.socket
       {| model_service := None; active_connections := [4; 9];
          wall := TestDouble.wall_clock |}
     = (Raise (Exc ValueError "list.remove(x): x not in list"),
        {| model_service := None; active_connections := [4; 9];
           wall := TestDouble.wall_clock |}).
Proof.
  assert (Hfresh : ws_id TestDouble.socket
                   ∉ active_connections
                       {| model_service := None;
                          active_connections := [4; 9];
                          wall := TestDouble.wall_clock |}).
  { cbn. intros Hin. repeat (apply elem_of_cons in Hin as [Hin|Hin];
                             [discriminate|]).
    by apply elem_of_nil in Hin. }
  split; [reflexivity|]. split; [exact Hfresh|].
  exact (connect_then_disconnect TestDouble.socket
           {| model_service := None; active_connections := [4; 9];
              wall := TestDouble.wall_clock |} eq_refl Hfresh).
Defined.

(** ** The validators *)

Lemma lower_char_idempotent (c : ascii) :
  lower_char (lower_char c) = lower_char c.
Proof. by destruct c as [[] [] [] [] [] [] [] []]. Qed.

Lemma lower_idempotent (s : string) : lower (lower s) = lower s.
Proof.
  induction s as [|c s IH]; [done|].
  simpl. by rewrite lower_char_idempotent, IH.
Qed.

(** X24: the two validators look at the lower-cased content type only, so
    a type and its lower-cased form are judged alike; whatever
    [validate_image_format] accepts starts, lower-cased, with [image/], and
    no content type is accepted by both validators. *)
Theorem validators_are_case_blind_and_disjoint (file_content_type : string) :
  validate_image_format (lower file_content_type)
    = validate_image_format file_content_type /\
  validate_video_format (lower file_content_type)
    = validate_video_format file_content_type /\
  implb (validate_image_format file_content_type)
    (String.prefix "image/" (lower file_content_type)) = true /\
  validate_image_format file_content_type
    && validate_video_format file_content_type = false.
Proof.
  unfold validate_image_format, validate_video_format, in_formats.
  rewrite lower_idempotent. split; [done|]. split; [done|].
  cbn [existsb].
  repeat match goal with
         | |- context [String.eqb (lower file_content_type) ?x] =>
             destruct (String.eqb_spec (lower file_content_type) x) as [->|]
         end; done.
Qed.

(** An upper-case content type passes the validator, though not the
    case-sensitive test of [upload_image]. *)
Example validate_image_format_upper_case :
  validate_image_format "IMAGE/PNG" = true /\
  String.prefix "image/" "IMAGE/PNG" = false /\
  validate_image_format "image/gif" = false /\
  String.prefix "image/" "image/gif" = true.
Proof. repeat split; reflexivity. Qed.

(** ** The startup script *)

Lemma check_model_files_all (h : host) :
  check_model_files h = true <->
  Forall (fun file_path => file_exists h file_path = true) files_to_check.
Proof.
  unfold check_model_files, files_to_check. cbn [fold_left].
  rewrite !Forall_cons.
  destruct (file_exists h "model.py");
    destruct (file_exists h "model_utils.py");
    destruct (file_exists h "model_service.py");
    destruct (file_exists h "utils.py");
    destruct (file_exists h "checkpoints/UltimaVersion/my_checkpoint.pth.tar");
    split; try done; try (by intros (? & ? & ? & ? & ? & _)).
Qed.

(** X25: the startup script runs the server exactly when all three checks
    pass: the dependencies import, each of the five files exists, the
    checkpoint included, and [ModelService()] can be constructed.  In every
    other case it exits with status 1 and the server is never run. *)
Theorem main_runs_server_iff_checks_pass `{Backend} (h : host) :
  (main h = SysExit 1 false <->
   ~ (missing_dependency h = None /\
      Forall (fun file_path => file_exists h file_path = true) files_to_check /\
      is_ok (ModelService_init (torch h) None) = true)) /\
  (main h <> SysExit 1 false ->
   main h = match uvicorn_run h with
            | Ok _ => ServerReturned
            | Raise _ => SysExit 1 true
            end).
Proof.
  rewrite <- check_model_files_all.
  unfold main, check_dependencies, test_model_loading.
  destruct (missing_dependency h) as [dep|]; cbn [negb].
  { split; [|done]. split; [|done]. by intros _ [? _]. }
  destruct (check_model_files h); cbn [negb].
  2:{ split; [|done]. split; [|done]. by intros _ (_ & ? & _). }
  destruct (ModelService_init (torch h) None) as [ms|e]; cbn [negb is_ok].
  2:{ split; [|done]. split; [|done]. by intros _ (_ & _ & ?). }
  split; [|done].
  split; [by destruct (uvicorn_run h)|]. intros Hn. by destruct Hn.
Qed.

(** ** The stages composed *)

Lemma preprocess_image_three_channel `{Backend} (self : ModelService)
    (image : ndarray Z) (h w : nat) :
  transform self = Some (Compose_transforms 560 690) ->
  shape image = [h; w; 3] -> 0 < h -> 0 < w ->
  exists t, preprocess_image self image = Ok t /\ shape t = [1; 3; 560; 690].
Proof.
  intros Ht Hs Hh Hw. unfold preprocess_image.
  rewrite log_and_reraise_id, Hs, Ht. cbn [length nth Nat.eqb andb].
  unfold cvtColor. rewrite Hs.
  rewrite numel_eqb_nonzero by (repeat constructor; lia).
  cbn [Nat.eqb mbind result_bind].
  unfold Image_fromarray. cbn [shape Nat.eqb mbind result_bind call].
  destruct (Compose_transforms_rgb 560 690
              (PILImage RGB w h (data (NDArray [h; w; 3]
                                         (swap_rb (data image))))) eq_refl)
    as (t & -> & Hshape).
  cbn [mbind result_bind]. eexists. split; [reflexivity|].
  unfold unsqueeze0. cbn [shape]. by rewrite Hshape.
Qed.

Lemma postprocess_output_score_map `{Backend} (self : ModelService)
    (output : ndarray Q) (h w : nat) (rest : list nat) :
  shape output = [1; 1; 560; 690] -> 0 < h -> 0 < w ->
  exists mask,
    postprocess_output self output (h :: w :: rest) = Ok mask /\
    shape mask = [h; w].
Proof.
  intros Hs Hh Hw. unfold postprocess_output.
  rewrite log_and_reraise_id. unfold squeeze. cbn [shape data]. rewrite Hs.
  cbn [List.filter Nat.eqb negb firstn].
  case_bool_decide as Hne.
  - cbn [tuple_item lookup list_lookup mbind result_bind].
    unfold cv2_resize. cbn [shape].
    rewrite numel_eqb_nonzero by (repeat constructor; lia).
    destruct (Nat.eqb_spec w 0); [lia|]. destruct (Nat.eqb_spec h 0); [lia|].
    cbn [orb]. by eexists.
  - injection Hne as -> ->. by eexists.
Qed.

(** X26: the four stages fit together.  For a constructed service whose
    network answers every (1, 3, 560, 690) tensor with a (1, 1, 560, 690)
    score map, [process_image] succeeds on every three-channel image of
    positive height H and width W, with a mask of shape (H, W), an overlay of
    shape (H, W, 3) and the difference of the two clock readings as
    processing time. *)
Theorem process_image_end_to_end `{Backend} (env : torch_env)
    (checkpoint_path : option string) (self : ModelService)
    (image : ndarray Z) (clk : clock) (h w : nat) :
  ModelService_init env checkpoint_path = Ok self ->
  (forall t, shape t = [1; 3; 560; 690] ->
             exists o, call (model self) t = Ok o /\
                       shape o = [1; 1; 560; 690]) ->
  shape image = [h; w; 3] -> 0 < h -> 0 < w ->
  exists res mask overlay,
    fst (process_image self image clk) = Ok res /\
    res !! "mask" = Some (RArray mask) /\ shape mask = [h; w] /\
    res !! "overlay" = Some (RArray overlay) /\ shape overlay = [h; w; 3] /\
    res !! "processing_time"
    = Some (RFloat (now clk (S (ticks clk)) - now clk (ticks clk))%Q).
Proof.
  intros Hinit Hnet Hs Hh Hw.
  destruct (ModelService_init_fields _ _ _ Hinit) as (Ht & _).
  destruct (preprocess_image_three_channel self image h w Ht Hs Hh Hw)
    as (t & Hpre & Hshape).
  destruct (Hnet t Hshape) as (o & Hcall & Hscore).
  destruct (postprocess_output_score_map self o h w [3] Hscore Hh Hw)
    as (mask & Hpost & Hmask).
  destruct (overlay_mask_broadcasts self image mask default_alpha h w 3 h w
              Hs ltac:(lia) Hmask ltac:(by left) ltac:(by left))
    as (overlay & Hov & Hovs).
  exists (<["mask" := RArray mask]>
          (<["overlay" := RArray overlay]>
           (<["processing_time" :=
                RFloat (now clk (S (ticks clk)) - now clk (ticks clk))%Q]>
            ∅))), mask, overlay.
  split.
  { unfold process_image. cbn [time_time].
    rewrite Hpre. cbn [mbind result_bind]. rewrite Hcall.
    cbn [mbind result_bind]. rewrite Hs, Hpost. cbn [mbind result_bind].
    rewrite Hov. reflexivity. }
  split; [by rewrite lookup_insert_eq|]. split; [done|].
  split; [by rewrite lookup_insert_ne, lookup_insert_eq by done|].
  split; [done|].
  by rewrite !lookup_insert_ne, lookup_insert_eq by done.
Qed.

Lemma process_image_end_to_end_witness :
  @ModelService_init TestDouble.backend TestDouble.env None
    = Ok TestDouble.service /\
  (forall t, shape t = [1; 3; 560; 690] ->
             exists o, call (model TestDouble.service) t = Ok o /\
                       shape o = [1; 1; 560; 690]) /\
  shape (NDArray [2; 1; 3] [1; 2; 3; 4; 5; 6]%Z) = [2; 1; 3] /\
  0 < 2 /\ 0 < 1 /\
  exists res mask overlay,
    fst (@process_image TestDouble.backend TestDouble.service
           (NDArray [2; 1; 3] [1; 2; 3; 4; 5; 6]%Z) TestDouble.wall_clock)
      = Ok res /\
    res !! "mask" = Some (RArray mask) /\ shape mask = [2; 1] /\
    res !! "overlay" = Some (RArray overlay) /\ shape overlay = [2; 1; 3] /\
    res !! "processing_time"
    = Some (RFloat (now TestDouble.wall_clock
                      (S (ticks TestDouble.wall_clock))
                    - now TestDouble.wall_clock
                        (ticks TestDouble.wall_clock))%Q).
Proof.
  assert (Hnet : forall t, shape t = [1; 3; 560; 690] ->
                   exists o, call (model TestDouble.service) t = Ok o /\
                             shape o = [1; 1; 560; 690]).
  { intros t Ht. exists (tabulate [1; 1; 560; 690] (fun _ => 0%Q)).
    split; [|reflexivity].
    cbn [call model TestDouble.service]. unfold TestDouble.net.
    rewrite bool_decide_true by exact Ht. reflexivity. }
  split; [reflexivity|]. split; [exact Hnet|]. split; [reflexivity|].
  split; [lia|]. split; [lia|].
  apply (@process_image_end_to_end TestDouble.backend TestDouble.env None
           TestDouble.service (NDArray [2; 1; 3] [1; 2; 3; 4; 5; 6]%Z)
           TestDouble.wall_clock 2 1);
    [reflexivity | exact Hnet | reflexivity | lia | lia].
Defined.
